(** * Preg-Dashboard: the event store, the progress calculator and the sync
    client of [src/App.jsx], embedded in Rocq.

    First the values the program handles and the library functions it
    imports; then its own functions: [formatDateInput], [normalizeEvent],
    the loaders, the GitHub client, and the state of the [App] component
    with its derived views and its handlers.  The vocabulary of the
    statements and the theorems come after the definitions. *)

From Stdlib Require Import ZArith Lia Bool List.
From Stdlib Require Import Strings.Ascii Strings.String Numbers.DecimalString.
From stdpp Require Import base tactics option list sorting gmap strings.

Local Open Scope string_scope.
Local Open Scope list_scope.
Local Open Scope Z_scope.

(** ** JavaScript text

    A JavaScript string is a sequence of UTF-16 code units.  It is modelled
    by a Rocq [string], one character per code unit, which covers the code
    units below 256; every text the program itself produces (dates, labels,
    URLs) is of that kind. *)

Module Js.

(** The code units below 256 that [String.prototype.trim] strips: TAB, LF,
    VT, FF, CR, SPACE and NBSP. *)
Definition isWhiteSpace (c : ascii) : bool :=
  let k := Z.of_N (N_of_ascii c) in
  ((9 <=? k) && (k <=? 13)) || (k =? 32) || (k =? 160).

Fixpoint trimStart (s : string) : string :=
  match s with
  | EmptyString => EmptyString
  | String c rest => if isWhiteSpace c then trimStart rest else s
  end.

Fixpoint trimEnd (s : string) : string :=
  match s with
  | EmptyString => EmptyString
  | String c rest =>
      match trimEnd rest with
      | EmptyString => if isWhiteSpace c then EmptyString else String c EmptyString
      | kept => String c kept
      end
  end.

Definition trim (s : string) : string := trimEnd (trimStart s).

(** [s.includes(c)] for a single code unit. *)
Fixpoint includes (c : ascii) (s : string) : bool :=
  match s with
  | EmptyString => false
  | String a rest => Ascii.eqb a c || includes c rest
  end.

(** [Number.prototype.toString] on an integer that is printed without an
    exponent (below 10^21 in size). *)
Definition Number_toString (n : Z) : string :=
  NilZero.string_of_int (Z.to_int n).

Fixpoint repeat0 (k : nat) : string :=
  match k with
  | O => EmptyString
  | S k' => String "0" (repeat0 k')
  end.

(** [s.padStart(targetLength, "0")]. *)
Definition padStart0 (targetLength : nat) (s : string) : string :=
  repeat0 (targetLength - String.length s) +:+ s.

(** Comparison of two strings by code units: the order of [<], [>=] and,
    on the digit-and-hyphen texts the program keeps as dates, of
    [localeCompare].  The result is negative, zero or positive. *)
Definition localeCompare (a b : string) : Z :=
  match String.compare a b with
  | Lt => -1
  | Eq => 0
  | Gt => 1
  end.

(** [a >= b] on strings. *)
Definition geb (a b : string) : bool := String.leb b a.

End Js.

(** ** The calendar behind [Date]

    A valid [Date] is used by the program through its local calendar day
    only ([format] with day patterns, [differenceInCalendarDays],
    [addDays]).  It is modelled by the number of that day, counted from
    1970-01-01, in the proleptic Gregorian calendar of ECMAScript. *)

Module Calendar.

(** Day number of the civil date [y]-[m]-[d], for a month [m] in 1..12
    (ECMAScript's [MakeDay]; linear in [d], as [MakeDay] is). *)
Definition days_from_civil (y m d : Z) : Z :=
  let y' := if m <=? 2 then y - 1 else y in
  let era := y' / 400 in
  let yoe := y' - era * 400 in
  let mp := if m <=? 2 then m + 9 else m - 3 in
  let doy := (153 * mp + 2) / 5 + d - 1 in
  let doe := yoe * 365 + yoe / 4 - yoe / 100 + doy in
  era * 146097 + doe - 719468.

(** Civil date of a day number ([YearFromTime], [MonthFromTime],
    [DateFromTime]); the month is in 1..12.  The day is located in its
    400-year era, then in its century, its four-year cycle and its year,
    the years running from 1 March. *)
Definition civil_from_days (n : Z) : Z * Z * Z :=
  let z := n + 719468 in
  let era := z / 146097 in
  let doe := z mod 146097 in
  let century := Z.min (doe / 36524) 3 in
  let doc := doe - century * 36524 in
  let cycle := doc / 1461 in
  let doq := doc - cycle * 1461 in
  let yoq := Z.min (doq / 365) 3 in
  let doy := doq - yoq * 365 in
  let mp := (5 * doy + 2) / 153 in
  let d := doy - (153 * mp + 2) / 5 + 1 in
  let m := if mp <? 10 then mp + 3 else mp - 9 in
  let y := era * 400 + century * 100 + cycle * 4 + yoq in
  (if m <=? 2 then y + 1 else y, m, d).

Definition getFullYear (n : Z) : Z := fst (fst (civil_from_days n)).
(** [getMonth] counts from 0. *)
Definition getMonth (n : Z) : Z := snd (fst (civil_from_days n)) - 1.
Definition getDate (n : Z) : Z := snd (civil_from_days n).
(** [getDay]: 0 is Sunday; 1970-01-01 was a Thursday. *)
Definition getDay (n : Z) : Z := (n + 4) mod 7.

Definition isLeapYearIndex (year : Z) : bool :=
  (Z.rem year 400 =? 0) || ((Z.rem year 4 =? 0) && negb (Z.rem year 100 =? 0)).

(** A time value is kept only within 100,000,000 days of the epoch
    ([TimeClip]). *)
Definition inTimeRange (n : Z) : bool := (-100000000 <=? n) && (n <=? 100000000).

End Calendar.

(** A [Date] object: the Invalid Date, or a valid one on local calendar day
    [day]. *)
Inductive JsDate : Type :=
| InvalidDate
| DateAt (day : Z).

Definition isValid (d : JsDate) : bool :=
  match d with
  | InvalidDate => false
  | DateAt _ => true
  end.

(** [new Date(NaN)] when the day is out of range. *)
Definition timeClip (n : Z) : JsDate :=
  if Calendar.inTimeRange n then DateAt n else InvalidDate.

(** ** date-fns [format]

    [addLeadingZeros(number, targetLength)]. *)
Definition addLeadingZeros (number : Z) (targetLength : nat) : string :=
  let sign := if number <? 0 then "-" else "" in
  let output := Js.padStart0 targetLength (Js.Number_toString (Z.abs number)) in
  sign +:+ output.

(** The year token [yyyy]: year 0 of JavaScript is printed as 1 (BC). *)
Definition format_y (day : Z) (tokenLength : nat) : string :=
  let signedYear := Calendar.getFullYear day in
  let year := if signedYear >? 0 then signedYear else 1 - signedYear in
  addLeadingZeros year tokenLength.

(** [format(date, "yyyy-MM-dd")] on a valid date.  On the Invalid Date
    [format] throws; the program calls it only behind [isValid] or on
    [new Date()], so the function takes the day of a valid date. *)
Definition format_yyyy_MM_dd (day : Z) : string :=
  format_y day 4 +:+ "-" +:+ addLeadingZeros (Calendar.getMonth day + 1) 2
    +:+ "-" +:+ addLeadingZeros (Calendar.getDate day) 2.

Definition monthAbbreviated (month : Z) : string :=
  nth (Z.to_nat month)
    ["Jan"; "Feb"; "Mar"; "Apr"; "May"; "Jun"; "Jul"; "Aug"; "Sep"; "Oct"; "Nov"; "Dec"] "".

(** [format(date, "MMM d, yyyy")] on a valid date (default locale en-US). *)
Definition format_MMM_d_yyyy (day : Z) : string :=
  monthAbbreviated (Calendar.getMonth day) +:+ " " +:+ addLeadingZeros (Calendar.getDate day) 1
    +:+ ", " +:+ format_y day 4.

(** [differenceInCalendarDays(dateLeft, dateRight)] on valid dates. *)
Definition differenceInCalendarDays (dateLeft dateRight : Z) : Z := dateLeft - dateRight.

(** [addDays(date, amount)] on a valid date. *)
Definition addDays (day amount : Z) : Z := day + amount.

(** ** JavaScript values

    What the program observes of a value: whether it is nullish, whether it
    is truthy, whether it is a [Date], and the text [String(value)] gives.
    Numbers, booleans, arrays and plain objects are observed through the
    last two only and share the constructor [JOther]; a [Date] carries the
    text its [toString] gives in the host. *)
Inductive JsValue : Type :=
| JUndefined
| JNull
| JStr (s : string)
| JDate (d : JsDate) (text : string)
| JOther (isTruthy : bool) (text : string).

Definition JBool (b : bool) : JsValue := JOther b (if b then "true" else "false").
(** An integral number. *)
Definition JNum (n : Z) : JsValue := JOther (negb (n =? 0)) (Js.Number_toString n).

Definition truthy (v : JsValue) : bool :=
  match v with
  | JUndefined | JNull => false
  | JStr s => negb (String.eqb s "")
  | JDate _ _ => true
  | JOther t _ => t
  end.

Definition nullish (v : JsValue) : bool :=
  match v with
  | JUndefined | JNull => true
  | _ => false
  end.

(** [a ?? b]. *)
Definition coalesce (a b : JsValue) : JsValue := if nullish a then b else a.
Infix "??" := coalesce (at level 45, left associativity).

(** [String(value)]. *)
Definition String_ (v : JsValue) : string :=
  match v with
  | JUndefined => "undefined"
  | JNull => "null"
  | JStr s => s
  | JDate _ text => text
  | JOther _ text => text
  end.

(** A raw record: a JavaScript object read by property name; a property
    that is absent reads as [undefined]. *)
Abbreviation Raw := (gmap string JsValue).

Definition prop (raw : Raw) (name : string) : JsValue :=
  default JUndefined (raw !! name).

(** The canonical event. *)
Record Event : Type := mkEvent {
  date : string;
  type : string;
  title : string;
  notes : string;
}.

(** An event, or a form whose four fields are texts, as the object the
    program passes around. *)
Definition object_of (e : Event) : Raw :=
  {[ "date" := JStr (date e); "type" := JStr (type e);
     "title" := JStr (title e); "notes" := JStr (notes e) ]}.

(** What a call gives back: a value, or a thrown [Error] with its message. *)
Inductive Outcome (A : Type) : Type :=
| Threw (message : string)
| Returned (value : A).
Arguments Threw {A} message.
Arguments Returned {A} value.

(** A [fetch] response as the program reads it: the status and the body,
    whose reading depends on the caller. *)
Record Response (B : Type) : Type := mkResponse {
  status : Z;
  body : B;
}.
Arguments mkResponse {B} status body.
Arguments status {B} r.
Arguments body {B} r.

(** [response.ok]. *)
Definition ok {B} (response : Response B) : bool :=
  (200 <=? status response) && (status response <=? 299).

(** What [fetch(DATA_XLSX)] settles to.  The body of the response is what
    reading the workbook gives: the rows of its first sheet, or the error
    thrown on the way. *)
Abbreviation SheetFetch := (Outcome (Response (Outcome (list Raw)))).

(** What [fetch(DATA_JSON)] settles to.  The body is what [response.json()]
    gives: an error, or the parsed value, of which the program reads
    [data?.events]: [Some rows] when that is an array, [None] otherwise.
    The rows are objects; a [null] among them makes [normalizeEvent] throw,
    which the error outcome of the body stands for. *)
Abbreviation JsonFetch := (Outcome (Response (Outcome (option (list Raw))))).

Section Normalizer.

(** date-fns [parseISO] is imported, not defined by the program; the
    definitions are written over it.  A model of it on date-only texts
    is [DateFns.parseISO] below. *)
Variable parseISO : string -> JsDate.

Definition formatDateInput (value : JsValue) : string :=
  if negb (truthy value) then ""
  else
    match value with
    | JDate (DateAt day) _ => format_yyyy_MM_dd day
    | _ =>
        match parseISO (String_ value) with
        | DateAt day => format_yyyy_MM_dd day
        | InvalidDate => ""
        end
    end.

Definition normalizeEvent (raw : Raw) : Event :=
  let dateValue := prop raw "date" ?? prop raw "Date" ?? prop raw "DATE" in
  let date := formatDateInput dateValue in
  {| date := date;
     type := Js.trim (String_ (prop raw "type" ?? prop raw "Type" ?? JStr ""));
     title := Js.trim (String_ (prop raw "title" ?? prop raw "Title" ?? JStr ""));
     notes := Js.trim (String_ (prop raw "notes" ?? prop raw "Notes" ?? JStr "")) |}.

(** [rows.map(normalizeEvent).filter((event) => event.date)]. *)
Definition keepDated (rows : list Raw) : list Event :=
  List.filter (fun event => truthy (JStr (date event))) (List.map normalizeEvent rows).

(** [fetchSheetEvents], given what its [fetch] settles to. *)
Definition fetchSheetEvents (fetched : SheetFetch) : Outcome (list Event) :=
  match fetched with
  | Threw m => Threw m
  | Returned response =>
      if negb (ok response) then Threw "Unable to load pregnancy-data.xlsx"
      else
        match body response with
        | Threw m => Threw m
        | Returned rows => Returned (keepDated rows)
        end
  end.

(** [fetchJsonEvents], given what its [fetch] settles to. *)
Definition fetchJsonEvents (fetched : JsonFetch) : Outcome (list Event) :=
  match fetched with
  | Threw m => Threw m
  | Returned response =>
      if negb (ok response) then Threw "Unable to load pregnancy-data.json"
      else
        match body response with
        | Threw m => Threw m
        | Returned data =>
            let rows := match data with Some events => events | None => [] end in
            Returned (keepDated rows)
        end
  end.

End Normalizer.

(** ** A model of date-fns [parseISO] on date-only texts

    [parseISO] splits its argument into a date part and a time-and-zone
    part, reads the date part with [parseYear] and [parseDate], and then
    adds the time and applies the zone.  The model follows the library for
    the date part, with [additionalDigits] at its default 2.  How a text
    that carries a time or a zone is read depends on the zone of the host;
    that reading is the parameter [readTimed]. *)

Module DateFns.

Definition digitValue (c : ascii) : option Z :=
  let k := Z.of_N (N_of_ascii c) in
  if (48 <=? k) && (k <=? 57) then Some (k - 48) else None.

(** [\d{k}] at the head of [s]: the number read and the rest of [s]. *)
Fixpoint digits (k : nat) (s : string) (acc : Z) : option (Z * string) :=
  match k with
  | O => Some (acc, s)
  | S k' =>
      match s with
      | EmptyString => None
      | String c rest =>
          match digitValue c with
          | Some v => digits k' rest (10 * acc + v)
          | None => None
          end
      end
  end.

Definition signValue (c : ascii) : option Z :=
  if Ascii.eqb c "+" then Some 1
  else if Ascii.eqb c "-" then Some (-1)
  else None.

(** An optional hyphen, [-?]. *)
Definition skipHyphen (s : string) : string :=
  match s with
  | String c rest => if Ascii.eqb c "-" then rest else s
  | EmptyString => s
  end.

(** [parseYear]: the regular expression
    [^(?:(\d{4}|[+-]\d{6})|(\d{2}|[+-]\d{4})$)]; the result is the year
    (a century counts a hundredfold) and [restDateString]. *)
Definition parseYear (dateString : string) : option (Z * string) :=
  match dateString with
  | EmptyString => None
  | String c signed =>
      match signValue c with
      | Some sign =>
          match digits 6 signed 0 with
          | Some (year, restDateString) => Some (sign * year, restDateString)
          | None =>
              match digits 4 signed 0 with
              | Some (century, EmptyString) => Some (sign * century * 100, EmptyString)
              | _ => None
              end
          end
      | None =>
          match digits 4 dateString 0 with
          | Some (year, restDateString) => Some (year, restDateString)
          | None =>
              match digits 2 dateString 0 with
              | Some (century, EmptyString) => Some (century * 100, EmptyString)
              | _ => None
              end
          end
      end
  end.

(** The captures of [dateRegex],
    [^-?(?:(\d{3})|(\d{2})(?:-?(\d{2}))?|W(\d{2})(?:-?(\d{1}))?|)$]:
    day of year, month, day, week, day of week. *)
Record Captures : Type := mkCaptures {
  c_dayOfYear : option Z;
  c_month : option Z;
  c_day : option Z;
  c_week : option Z;
  c_dayOfWeek : option Z;
}.

Definition dateRegex (dateString : string) : option Captures :=
  let s := skipHyphen dateString in
  match s with
  | EmptyString => Some (mkCaptures None None None None None)
  | String c weekString =>
      if Ascii.eqb c "W" then
        match digits 2 weekString 0 with
        | Some (week, EmptyString) => Some (mkCaptures None None None (Some week) None)
        | Some (week, rest) =>
            match digits 1 (skipHyphen rest) 0 with
            | Some (dayOfWeek, EmptyString) =>
                Some (mkCaptures None None None (Some week) (Some dayOfWeek))
            | _ => None
            end
        | None => None
        end
      else
        match digits 3 s 0 with
        | Some (dayOfYear, EmptyString) => Some (mkCaptures (Some dayOfYear) None None None None)
        | _ =>
            match digits 2 s 0 with
            | Some (month, EmptyString) => Some (mkCaptures None (Some month) None None None)
            | Some (month, rest) =>
                match digits 2 (skipHyphen rest) 0 with
                | Some (day, EmptyString) => Some (mkCaptures None (Some month) (Some day) None None)
                | _ => None
                end
            | None => None
            end
        end
  end.

(** [parseDateUnit(value)]: 1 when the group did not take part. *)
Definition parseDateUnit (value : option Z) : Z := default 1 value.

Definition daysInMonth (year month : Z) : Z :=
  if month =? 1 then (if Calendar.isLeapYearIndex year then 29 else 28)
  else if (month =? 3) || (month =? 5) || (month =? 8) || (month =? 10) then 30
  else 31.

(** [validateDate]; [month] counts from 0. *)
Definition validateDate (year month date : Z) : bool :=
  (0 <=? month) && (month <=? 11) && (1 <=? date) && (date <=? daysInMonth year month).

Definition validateDayOfYearDate (year dayOfYear : Z) : bool :=
  (1 <=? dayOfYear) && (dayOfYear <=? (if Calendar.isLeapYearIndex year then 366 else 365)).

Definition validateWeekDate (week day : Z) : bool :=
  (1 <=? week) && (week <=? 53) && (0 <=? day) && (day <=? 6).

(** [date.setUTCFullYear(year, month, day)] on [new Date(0)]. *)
Definition setUTCFullYear (year month day : Z) : JsDate :=
  timeClip (Calendar.days_from_civil year (month + 1) day).

Definition dayOfISOWeekYear (isoWeekYear week day : Z) : JsDate :=
  match setUTCFullYear isoWeekYear 0 4 with
  | InvalidDate => InvalidDate
  | DateAt fourth =>
      let fourthOfJanuaryDay := if Calendar.getDay fourth =? 0 then 7 else Calendar.getDay fourth in
      let diff := (week - 1) * 7 + day + 1 - fourthOfJanuaryDay in
      timeClip (fourth + diff)
  end.

Definition parseDate (dateString : string) (year : Z) : JsDate :=
  match dateRegex dateString with
  | None => InvalidDate
  | Some captures =>
      let isWeekDate := bool_decide (is_Some (c_week captures)) in
      let dayOfYear := parseDateUnit (c_dayOfYear captures) in
      let month := parseDateUnit (c_month captures) - 1 in
      let day := parseDateUnit (c_day captures) in
      let week := parseDateUnit (c_week captures) in
      let dayOfWeek := parseDateUnit (c_dayOfWeek captures) - 1 in
      if isWeekDate then
        if negb (validateWeekDate week dayOfWeek) then InvalidDate
        else dayOfISOWeekYear year week dayOfWeek
      else
        if negb (validateDate year month day) || negb (validateDayOfYearDate year dayOfYear)
        then InvalidDate
        else setUTCFullYear year month (Z.max dayOfYear day)
  end.

(** [dateString.split(/[T ]/)]. *)
Fixpoint splitDateTime (s : string) : list string :=
  match s with
  | EmptyString => [EmptyString]
  | String c rest =>
      if Ascii.eqb c "T" || Ascii.eqb c " " then EmptyString :: splitDateTime rest
      else
        match splitDateTime rest with
        | piece :: pieces => String c piece :: pieces
        | [] => [String c EmptyString]
        end
  end.

Section Model.

(** The reading of a text with a time or zone part. *)
Variable readTimed : string -> JsDate.

Definition parseISO (argument : string) : JsDate :=
  match splitDateTime argument with
  | [] => InvalidDate
  | _ :: _ :: _ :: _ => InvalidDate
  | datePart :: timePart =>
      if Js.includes ":" datePart then InvalidDate
      else if Js.includes "Z" datePart || Js.includes "z" datePart
              || negb (bool_decide (timePart = [] \/ timePart = [EmptyString]))
      then readTimed argument
      else
        match parseYear datePart with
        | None => InvalidDate
        | Some (year, restDateString) => parseDate restDateString year
        end
  end.

End Model.

(** The instance used on date-only texts. *)
Definition parseISO_date : string -> JsDate := parseISO (fun _ => InvalidDate).

End DateFns.

(** ** The GitHub client

    [getGitHubFileSha] and [putGitHubFile] talk to the remote through
    [fetch].  A computation of the client reads the remote, appends every
    request it issues to a log, and ends with a value or a thrown error. *)

Declare Scope net_scope.
Delimit Scope net_scope with net.

Module GitHub.

Inductive Method : Type := GET | PUT.

(** The object the program serialises as the body of a write. *)
Record PutBody : Type := mkPutBody {
  message : string;
  content : string;
  sha : JsValue;
  branch : string;
}.

Record Request : Type := mkRequest {
  method : Method;
  url : string;
  authorization : string;
  accept : string;
  requestBody : option PutBody;
}.

(** The two readings of a response body the client uses:
    [response.json()], of which only the [sha] property is read (the
    error stands for a rejected [json()] or a failed property read), and
    [response.text()]. *)
Record Reply : Type := mkReply {
  json : Outcome JsValue;
  text : Outcome string;
}.

(** The remote: what [fetch] settles to for a request, given the requests
    issued before it.  [Threw] is a rejected [fetch]. *)
Definition Remote : Type := list Request -> Request -> Outcome (Response Reply).

(** An asynchronous computation of the client: from the remote and the
    requests issued so far, the requests issued in the end and the
    outcome. *)
Definition Net (A : Type) : Type := Remote -> list Request -> list Request * Outcome A.

Definition ret {A} (a : A) : Net A := fun _ log => (log, Returned a).

Definition throw {A} (m : string) : Net A := fun _ log => (log, Threw m).

Definition bind {A B} (c : Net A) (k : A -> Net B) : Net B :=
  fun remote log =>
    match c remote log with
    | (log', Returned a) => k a remote log'
    | (log', Threw m) => (log', Threw m)
    end.

(** A promise that is already settled. *)
Definition settled {A} (o : Outcome A) : Net A := fun _ log => (log, o).

(** [fetch(url, init)]: the request joins the log and the remote answers. *)
Definition fetch (request : Request) : Net (Response Reply) :=
  fun remote log => (log ++ [request], remote log request).

Notation "x <- c ;; k" := (bind c (fun x => k))
  (at level 100, c at next level, right associativity) : net_scope.

Definition getGitHubFileSha (owner repo path branch token : string) : Net JsValue :=
  (response <- fetch {| method := GET;
                        url := "https://api.github.com/repos/" +:+ owner +:+ "/" +:+ repo
                                 +:+ "/contents/" +:+ path +:+ "?ref=" +:+ branch;
                        authorization := "token " +:+ token;
                        accept := "application/vnd.github+json";
                        requestBody := None |} ;;
   if status response =? 404 then ret JNull
   else if negb (ok response) then
     throw ("Failed to read " +:+ path +:+ ": " +:+ Js.Number_toString (status response))
   else
     data_sha <- settled (json (body response)) ;;
     ret data_sha)%net.

(** [putGitHubFile]; the parsed body it returns goes to a caller that does
    not look at it. *)
Definition putGitHubFile (owner repo path branch token content message : string) : Net unit :=
  (sha <- getGitHubFileSha owner repo path branch token ;;
   response <- fetch {| method := PUT;
                        url := "https://api.github.com/repos/" +:+ owner +:+ "/" +:+ repo
                                 +:+ "/contents/" +:+ path;
                        authorization := "token " +:+ token;
                        accept := "application/vnd.github+json";
                        requestBody := Some {| message := message; content := content;
                                               sha := sha; branch := branch |} |} ;;
   if negb (ok response) then
     errorText <- settled (text (body response)) ;;
     throw ("Failed to update " +:+ path +:+ ": " +:+ Js.Number_toString (status response)
              +:+ " " +:+ errorText)
   else
     _ <- settled (json (body response)) ;;
     ret tt)%net.

End GitHub.

Notation "x <- c ;; k" := (GitHub.bind c (fun x => k))
  (at level 100, c at next level, right associativity) : net_scope.

(** ** The state of the [App] component *)

Record Status : Type := mkStatus {
  loading : bool;
  error : string;
  saving : bool;
  message : string;
}.

Record Settings : Type := mkSettings {
  owner : string;
  repo : string;
  branch : string;
  token : string;
  jsonPath : string;
  xlsxPath : string;
}.

(** The state hooks of [App] that the handlers touch.  The [status] state
    is the field [status_], the plain name being the one of the response
    field. *)
Record AppState : Type := mkAppState {
  events : list Event;
  selectedDate : JsDate;
  status_ : Status;
  form : Raw;
  settings : Settings;
}.

Definition startDate : string := "2025-10-20".

Definition defaultSettings : Settings :=
  {| owner := ""; repo := ""; branch := "main"; token := "";
     jsonPath := "public/data/pregnancy-data.json";
     xlsxPath := "public/data/pregnancy-data.xlsx" |}.

Definition emptyForm : Raw :=
  object_of {| date := ""; type := ""; title := ""; notes := "" |}.

(** The state at the first render; [now] is [new Date()]. *)
Definition initialState (now : JsDate) : AppState :=
  {| events := [];
     selectedDate := now;
     status_ := {| loading := true; error := ""; saving := false; message := "" |};
     form := emptyForm;
     settings := defaultSettings |}.

(** [setStatus((prev) => ({ ...prev, ... }))] and the other setters. *)
Definition setMessage (m : string) (st : AppState) : AppState :=
  {| events := events st; selectedDate := selectedDate st;
     status_ := {| loading := loading (status_ st); error := error (status_ st);
                   saving := saving (status_ st); message := m |};
     form := form st; settings := settings st |}.

Definition setSaving (b : bool) (st : AppState) : AppState :=
  {| events := events st; selectedDate := selectedDate st;
     status_ := {| loading := loading (status_ st); error := error (status_ st);
                   saving := b; message := message (status_ st) |};
     form := form st; settings := settings st |}.

Definition setLoading (b : bool) (st : AppState) : AppState :=
  {| events := events st; selectedDate := selectedDate st;
     status_ := {| loading := b; error := error (status_ st);
                   saving := saving (status_ st); message := message (status_ st) |};
     form := form st; settings := settings st |}.

Definition setError (m : string) (st : AppState) : AppState :=
  {| events := events st; selectedDate := selectedDate st;
     status_ := {| loading := loading (status_ st); error := m;
                   saving := saving (status_ st); message := message (status_ st) |};
     form := form st; settings := settings st |}.

Definition setEvents (l : list Event) (st : AppState) : AppState :=
  {| events := l; selectedDate := selectedDate st; status_ := status_ st;
     form := form st; settings := settings st |}.

Definition setSelectedDate (d : JsDate) (st : AppState) : AppState :=
  {| events := events st; selectedDate := d; status_ := status_ st;
     form := form st; settings := settings st |}.

Definition setForm (f : Raw) (st : AppState) : AppState :=
  {| events := events st; selectedDate := selectedDate st; status_ := status_ st;
     form := f; settings := settings st |}.

(** [m || fallback] on texts. *)
Definition orElse (m fallback : string) : string :=
  if String.eqb m "" then fallback else m.

(** ** [Array.prototype.sort]

    The sort is stable; with a consistent comparator its result is the one
    sorted arrangement that keeps equal elements in their order, which is
    what inserting from the right computes. *)
Section Sort.

Context {A : Type} (compareFn : A -> A -> Z).

Fixpoint insertBefore (x : A) (sorted : list A) : list A :=
  match sorted with
  | [] => [x]
  | y :: rest =>
      if compareFn x y <=? 0 then x :: sorted else y :: insertBefore x rest
  end.

Definition Array_sort (l : list A) : list A := List.fold_right insertBefore [] l.

End Sort.

(** [(a, b) => a.date.localeCompare(b.date)]. *)
Definition byDate (a b : Event) : Z := Js.localeCompare (date a) (date b).

(** ** Derived views *)

(** [eventsByDate]: the events grouped under their date. *)
Definition eventsByDate (events : list Event) : gmap string (list Event) :=
  List.fold_left
    (fun acc event =>
       if negb (truthy (JStr (date event))) then acc
       else <[date event := default [] (acc !! date event) ++ [event]]> acc)
    events ∅.

(** [upcomingEvents]; [todayKey] is [format(new Date(), "yyyy-MM-dd")]. *)
Definition upcomingEvents (todayKey : string) (events : list Event) : list Event :=
  take 5 (Array_sort byDate (List.filter (fun event => Js.geb (date event) todayKey) events)).

Definition topEvents (todayKey : string) (events : list Event) : list Event :=
  take 3 (upcomingEvents todayKey events).

(** [selectedEvents]; [key] is [format(selectedDate, "yyyy-MM-dd")]. *)
Definition selectedEvents (key : string) (events : list Event) : list Event :=
  default [] (eventsByDate events !! key).

(** ** [pregnancyProgress] *)

Inductive TextOrNumber : Type :=
| Text (s : string)
| Number (n : Z).

Record Progress : Type := mkProgress {
  weekNumber : Z;
  dayOfWeek : Z;
  trimester : string;
  pregnancyMonth : TextOrNumber;
  range : string;
  weekStart : Z;
  weekEnd : Z;
  todayKey : string;
}.

(** [Math.ceil(a / b)] for a positive [b]. *)
Definition Math_ceil_div (a b : Z) : Z := - ((- a) / b).

(** The body of the [pregnancyProgress] memo.  [lmpDate] is the day of
    [parseISO(startDate)] and [today] the day of [new Date()]; both are
    valid dates. *)
Definition pregnancyProgress (lmpDate today : Z) : Progress :=
  let dayDelta := differenceInCalendarDays today lmpDate in
  let weekNumber := if dayDelta >=? 0 then dayDelta / 7 else 0 in
  let dayOfWeek := if dayDelta >=? 0 then Z.rem dayDelta 7 else 0 in
  let weekStart := addDays lmpDate (Z.max 0 weekNumber * 7) in
  let weekEnd := addDays weekStart 6 in
  let trimester :=
    if weekNumber <=? 0 then "-"
    else if weekNumber <=? 12 then "1st Trimester"
    else if weekNumber <=? 27 then "2nd Trimester"
    else "3rd Trimester" in
  let pregnancyMonth := if weekNumber <=? 0 then Text "-" else Number (Math_ceil_div weekNumber 4) in
  {| weekNumber := weekNumber;
     dayOfWeek := dayOfWeek;
     trimester := trimester;
     pregnancyMonth := pregnancyMonth;
     range := format_MMM_d_yyyy weekStart +:+ " - " +:+ format_MMM_d_yyyy weekEnd;
     weekStart := weekStart;
     weekEnd := weekEnd;
     todayKey := format_yyyy_MM_dd today |}.

(** ** Handlers *)

Section Handlers.

Variable parseISO : string -> JsDate.

(** [loadEvents], given what the two fetches settle to; the second is
    only looked at when the first path fails. *)
Definition loadEvents (sheet : SheetFetch) (json : JsonFetch) (st : AppState) : AppState :=
  let st1 := setError "" (setLoading true st) in
  let st2 :=
    match fetchSheetEvents parseISO sheet with
    | Returned sheetEvents => setEvents sheetEvents st1
    | Threw _ =>
        match fetchJsonEvents parseISO json with
        | Returned jsonEvents => setEvents jsonEvents st1
        | Threw m => setError (orElse m "Unable to load data") st1
        end
    end in
  setLoading false st2.

(** The [pregnancyProgress] memo as the component evaluates it, with [now]
    for [new Date()].  On an Invalid Date [format] throws. *)
Definition pregnancyProgressOf (now : JsDate) : Outcome Progress :=
  match parseISO startDate, now with
  | DateAt lmpDate, DateAt today => Returned (pregnancyProgress lmpDate today)
  | _, _ => Threw "Invalid time value"
  end.

Definition handleAddEvent (st : AppState) : AppState :=
  if negb (truthy (prop (form st) "date")) || negb (truthy (prop (form st) "title")) then
    setMessage "Please add at least a date and title." st
  else
    let newEvent := normalizeEvent parseISO (form st) in
    setMessage "Event added locally."
      (setForm emptyForm
         (setSelectedDate (parseISO (date newEvent))
            (setEvents (Array_sort byDate (events st ++ [newEvent])) st))).

End Handlers.

Section Sync.

(** The two payloads, each a function of the event list: the
    base64 text of the pretty-printed JSON, and the base64 text of the
    workbook, whose writing may throw. *)
Variable jsonContentOf : list Event -> string.
Variable xlsxContentOf : list Event -> Outcome string.

(** The [try] block of [handleSync]. *)
Definition syncFiles (st : AppState) : GitHub.Net unit :=
  (let jsonContent := jsonContentOf (events st) in
   xlsxContent <- GitHub.settled (xlsxContentOf (events st)) ;;
   _ <- GitHub.putGitHubFile (owner (settings st)) (repo (settings st))
          (jsonPath (settings st)) (branch (settings st)) (token (settings st))
          jsonContent "Update pregnancy data JSON" ;;
   _ <- GitHub.putGitHubFile (owner (settings st)) (repo (settings st))
          (xlsxPath (settings st)) (branch (settings st)) (token (settings st))
          xlsxContent "Update pregnancy data Excel" ;;
   GitHub.ret tt)%net.

(** [handleSync]: the requests it issues, in order, and the state it
    leaves. *)
Definition handleSync (remote : GitHub.Remote) (st : AppState)
    : list GitHub.Request * AppState :=
  if String.eqb (owner (settings st)) "" || String.eqb (repo (settings st)) ""
     || String.eqb (token (settings st)) ""
  then ([], setMessage "Add GitHub owner, repo, and token before syncing." st)
  else
    let st1 := setMessage "" (setSaving true st) in
    let '(log, result) := syncFiles st remote [] in
    let st2 :=
      match result with
      | Returned _ => setMessage "Synced data to GitHub." st1
      | Threw m => setMessage (orElse m "Sync failed.") st1
      end in
    (log, setSaving false st2).

End Sync.

(** * Vocabulary of the statements *)

(** [x] may stand before [y] under a comparator. *)
Definition before {A : Type} (compareFn : A -> A -> Z) (x y : A) : Prop := compareFn x y <= 0.

(** Ascending order of dates, text against text by code units. *)
Definition dateLe (a b : Event) : Prop := String.le (date a) (date b).

(** A field counts as empty when it is falsy: the empty text, or a field
    that is missing. *)
Definition emptyField (v : JsValue) : bool := negb (truthy v).

(** The form holding a date, a title, a type and notes. *)
Definition formOf (d t ty n : string) : Raw :=
  object_of {| date := d; type := ty; title := t; notes := n |}.

(** The value [normalizeEvent] reads the date from. *)
Definition dateValueOf (raw : Raw) : JsValue :=
  prop raw "date" ?? prop raw "Date" ?? prop raw "DATE".

(** A date value is unparseable when it is not a valid [Date] and
    [parseISO] does not read its text. *)
Definition unparseable (parseISO : string -> JsDate) (v : JsValue) : Prop :=
  (forall day text, v <> JDate (DateAt day) text) /\ parseISO (String_ v) = InvalidDate.

(** The request of the metadata read for a file, and the request of its
    write with a given revision marker. *)
Definition readRequest (owner repo path branch token : string) : GitHub.Request :=
  {| GitHub.method := GitHub.GET;
     GitHub.url := "https://api.github.com/repos/" +:+ owner +:+ "/" +:+ repo
                     +:+ "/contents/" +:+ path +:+ "?ref=" +:+ branch;
     GitHub.authorization := "token " +:+ token;
     GitHub.accept := "application/vnd.github+json";
     GitHub.requestBody := None |}.

Definition writeRequest (owner repo path branch token content message : string)
    (marker : JsValue) : GitHub.Request :=
  {| GitHub.method := GitHub.PUT;
     GitHub.url := "https://api.github.com/repos/" +:+ owner +:+ "/" +:+ repo
                     +:+ "/contents/" +:+ path;
     GitHub.authorization := "token " +:+ token;
     GitHub.accept := "application/vnd.github+json";
     GitHub.requestBody :=
       Some {| GitHub.message := message; GitHub.content := content;
               GitHub.sha := marker; GitHub.branch := branch |} |}.

(** ** Checks used in the proofs

    A check of [f] on the [p] integers from [lo] on. *)
Fixpoint forallFrom (f : Z -> bool) (lo : Z) (p : positive) : bool :=
  match p with
  | xH => f lo
  | xO q => forallFrom f lo q && forallFrom f (lo + Zpos q) q
  | xI q => f lo && forallFrom f (lo + 1) q && forallFrom f (lo + 1 + Zpos q) q
  end.

(** What [civil_from_days] makes of the day [doy] of a year that starts on
    1 March: a month, a day that the month has (the 366th day being
    29 February), and January or February from day 306 on. *)
Definition monthCheck (doy : Z) : bool :=
  let mp := (5 * doy + 2) / 153 in
  let d := doy - (153 * mp + 2) / 5 + 1 in
  let m := if mp <? 10 then mp + 3 else mp - 9 in
  (0 <=? mp) && (mp <=? 11) && (1 <=? d)
  && (if doy =? 365 then (m =? 2) && (d =? 29) else d <=? DateFns.daysInMonth 1 (m - 1))
  && (if doy <? 306 then mp <? 10 else 10 <=? mp).

(** ** Dates and their texts

    The days whose year the [yyyy] token prints as it is, in four digits:
    0001-01-01 to 9999-12-31. *)
Definition firstDay : Z := Calendar.days_from_civil 1 1 1.
Definition lastDay : Z := Calendar.days_from_civil 9999 12 31.

(** The character of the last decimal digit of [k]. *)
Definition digitChar (k : Z) : ascii := ascii_of_N (Z.to_N (48 + k mod 10)).

(** The ten characters YYYY-MM-DD of a year, a month and a day. *)
Definition isoText (y m d : Z) : string :=
  String (digitChar (y / 1000)) (String (digitChar (y / 100)) (String (digitChar (y / 10))
    (String (digitChar y)
       (String "-" (String (digitChar (m / 10)) (String (digitChar m)
          (String "-" (String (digitChar (d / 10)) (String (digitChar d) EmptyString))))))))).

Definition fourDigits (y : Z) : string :=
  String (digitChar (y / 1000)) (String (digitChar (y / 100)) (String (digitChar (y / 10))
    (String (digitChar y) EmptyString))).

Definition twoDigits (m : Z) : string :=
  String (digitChar (m / 10)) (String (digitChar m) EmptyString).

(** A text is a canonical date when it reads YYYY-MM-DD and names a day of
    the calendar. *)
Definition canonicalDate (s : string) : bool :=
  match DateFns.digits 4 s 0 with
  | Some (y, String h1 r1) =>
      match DateFns.digits 2 r1 0 with
      | Some (m, String h2 r2) =>
          match DateFns.digits 2 r2 0 with
          | Some (d, EmptyString) =>
              Ascii.eqb h1 "-" && Ascii.eqb h2 "-" && DateFns.validateDate y (m - 1) d
          | _ => false
          end
      | _ => false
      end
  | _ => false
  end.

(** [parseISO] reads the text of a day of the years 0001 to 9999 back as
    that day. *)
Definition readsBack (parseISO : string -> JsDate) : Prop :=
  forall n, firstDay <= n <= lastDay -> parseISO (format_yyyy_MM_dd n) = DateAt n.

(** The text of a day of the years 0001 to 9999. *)
Definition fourDigitYearDate (s : string) : Prop :=
  exists n, firstDay <= n <= lastDay /\ s = format_yyyy_MM_dd n.

(** ** Sessions

    The operations that change the event list: a load, given what the two
    fetches settle to, and the submission of a form. *)
Inductive Op : Type :=
| OpLoad (sheet : SheetFetch) (json : JsonFetch)
| OpAdd (submitted : Raw).

Definition step (parseISO : string -> JsDate) (st : AppState) (op : Op) : AppState :=
  match op with
  | OpLoad sheet json => loadEvents parseISO sheet json st
  | OpAdd submitted => handleAddEvent parseISO (setForm submitted st)
  end.

Definition run (parseISO : string -> JsDate) (ops : list Op) (st : AppState) : AppState :=
  List.fold_left (step parseISO) ops st.

(** The invariant as the specification words it: every event of the store
    has a canonical date. *)
Definition allCanonical (st : AppState) : Prop :=
  Forall (fun event => canonicalDate (date event) = true) (events st).

(** A form that passes the check of [handleAddEvent] has a date that reads
    as a date. *)
Definition acceptedDateReads (parseISO : string -> JsDate) (op : Op) : Prop :=
  match op with
  | OpLoad _ _ => True
  | OpAdd submitted =>
      truthy (prop submitted "date") = true -> truthy (prop submitted "title") = true ->
      date (normalizeEvent parseISO submitted) <> ""
  end.

(** The text [format] gives for a valid date: never empty, and canonical
    when the day is of the years 0001 to 9999. *)
Definition renderedDate (s : string) : Prop :=
  s <> "" /\
  exists n, s = format_yyyy_MM_dd n /\ (firstDay <= n <= lastDay -> canonicalDate s = true).

(** ** Sample inputs *)

(** A remote on which the file does not exist yet and every write is
    refused as a conflict. *)
Definition remoteConflict : GitHub.Remote :=
  fun _ request =>
    match GitHub.method request with
    | GitHub.GET =>
        Returned (mkResponse 404 {| GitHub.json := Returned JUndefined;
                                    GitHub.text := Returned "Not Found" |})
    | GitHub.PUT =>
        Returned (mkResponse 409 {| GitHub.json := Returned JUndefined;
                                    GitHub.text := Returned "conflict" |})
    end.

(** A remote on which the file exists at revision [abc123] and writes
    succeed. *)
Definition remoteAtRevision : GitHub.Remote :=
  fun _ request =>
    match GitHub.method request with
    | GitHub.GET =>
        Returned (mkResponse 200 {| GitHub.json := Returned (JStr "abc123");
                                    GitHub.text := Returned "" |})
    | GitHub.PUT =>
        Returned (mkResponse 200 {| GitHub.json := Returned (JStr "def456");
                                    GitHub.text := Returned "" |})
    end.

(** A remote that answers every request with a server error. *)
Definition remoteDown : GitHub.Remote :=
  fun _ _ =>
    Returned (mkResponse 500 {| GitHub.json := Threw "Unexpected token";
                                GitHub.text := Returned "Server Error" |}).

(** A store with one event and the settings filled in. *)
Definition sampleState : AppState :=
  {| events := [ {| date := "2026-01-08"; type := "Ultrasound 1"; title := "Dating scan";
                    notes := "" |} ];
     selectedDate := DateAt 20000;
     status_ := {| loading := false; error := ""; saving := false; message := "" |};
     form := emptyForm;
     settings := {| owner := "octo"; repo := "planner"; branch := "main"; token := "t0k";
                    jsonPath := "public/data/pregnancy-data.json";
                    xlsxPath := "public/data/pregnancy-data.xlsx" |} |}.

(** A session: a load of two rows, one of them undated, an add, and the
    submission of the empty form. *)
Definition sampleSession : list Op :=
  [ OpLoad (Returned (mkResponse 200
              (Returned [ {[ "Date" := JStr "2026-03-09"; "Title" := JStr "NT scan" ]};
                          {[ "date" := JStr "to be fixed"; "title" := JStr "Glucose test" ]} ])))
           (Threw "offline");
    OpAdd (formOf "2026-01-08" "Dating scan" "Ultrasound 1" "");
    OpAdd emptyForm ].

(** * Properties *)

(** ** The stable sort *)

Section SortFacts.

Context {A : Type} (compareFn : A -> A -> Z).

Hypothesis before_total : forall x y, before compareFn x y \/ before compareFn y x.
Hypothesis before_trans :
  forall x y z, before compareFn x y -> before compareFn y z -> before compareFn x z.

Lemma insertBefore_Permutation (x : A) (l : list A) :
  insertBefore compareFn x l ≡ₚ x :: l.
Proof.
  induction l as [|y l IH]; simpl; [done|].
  destruct (compareFn x y <=? 0); [done|].
  rewrite IH. apply Permutation_swap.
Qed.

Lemma Array_sort_Permutation (l : list A) : Array_sort compareFn l ≡ₚ l.
Proof.
  induction l as [|x l IH]; simpl; [done|].
  rewrite insertBefore_Permutation. by rewrite IH.
Qed.

Lemma insertBefore_sorted (x : A) (l : list A) :
  StronglySorted (before compareFn) l ->
  StronglySorted (before compareFn) (insertBefore compareFn x l).
Proof.
  induction 1 as [|y l Hl IH Hy]; simpl.
  - repeat constructor.
  - destruct (Z.leb_spec (compareFn x y) 0) as [Hxy|Hxy].
    + constructor; [by constructor|].
      constructor; [exact Hxy|].
      eapply Forall_impl; [exact Hy|]. intros z Hz. by eapply before_trans.
    + constructor; [exact IH|].
      rewrite insertBefore_Permutation. constructor; [|exact Hy].
      destruct (before_total x y) as [H|H]; [unfold before in H; lia|exact H].
Qed.

Lemma Array_sort_sorted (l : list A) :
  StronglySorted (before compareFn) (Array_sort compareFn l).
Proof.
  induction l as [|x l IH]; simpl; [constructor|]. by apply insertBefore_sorted.
Qed.

End SortFacts.

Lemma localeCompare_le (a b : string) : Js.localeCompare a b <= 0 <-> String.le a b.
Proof.
  unfold Js.localeCompare, String.le, String.leb.
  destruct (String.compare a b); simpl; split; (done || lia).
Qed.

Lemma byDate_total (x y : Event) : before byDate x y \/ before byDate y x.
Proof.
  unfold before, byDate. rewrite !localeCompare_le.
  destruct (total String.le (date x) (date y)); auto.
Qed.

Lemma byDate_trans (x y z : Event) :
  before byDate x y -> before byDate y z -> before byDate x z.
Proof.
  unfold before, byDate. rewrite !localeCompare_le. intros ? ?. by etrans.
Qed.

Lemma sort_byDate_sorted (l : list Event) : StronglySorted dateLe (Array_sort byDate l).
Proof.
  assert (H : StronglySorted (before byDate) (Array_sort byDate l))
    by (apply Array_sort_sorted; [apply byDate_total|apply byDate_trans]).
  induction H as [|x l' Hl IH Hx]; constructor; [exact IH|].
  eapply Forall_impl; [exact Hx|].
  intros y. unfold before, byDate, dateLe. by rewrite localeCompare_le.
Qed.

(** ** The upcoming window *)

(** C9: for every store and every today key, [upcomingEvents] returns at
    most five events of the store, in ascending order of date, each dated
    on or after the today key. *)
Theorem upcomingEvents_window (todayKey : string) (events : list Event) :
  (length (upcomingEvents todayKey events) <= 5)%nat /\
  StronglySorted dateLe (upcomingEvents todayKey events) /\
  Forall (fun event => String.le todayKey (date event) /\ event ∈ events)
         (upcomingEvents todayKey events).
Proof.
  unfold upcomingEvents.
  set (kept := List.filter (fun event => Js.geb (date event) todayKey) events).
  split; [|split].
  - rewrite length_take. lia.
  - pose proof (sort_byDate_sorted kept) as Hs.
    rewrite <- (take_drop 5 (Array_sort byDate kept)) in Hs.
    by apply StronglySorted_app_1_l in Hs.
  - apply Forall_forall. intros event Hin.
    assert (Hk : event ∈ kept).
    { rewrite <- (Array_sort_Permutation byDate kept).
      eapply subseteq_take, Hin. }
    apply list_elem_of_In, filter_In in Hk as [Hev Hge].
    split; [|by apply list_elem_of_In].
    unfold Js.geb in Hge. unfold String.le. by rewrite Hge.
Qed.

(** ** Adding an event *)

(** C5: [handleAddEvent] refuses a form whose date or title is empty: it
    only sets the validation message, and the event list, the form and the
    selected date stay as they were.  A form with a date and a title is
    accepted: the list gains its normalized event and the message reports
    the add. *)
Theorem handleAddEvent_validation (parseISO : string -> JsDate) (st : AppState) :
  let st' := handleAddEvent parseISO st in
  if emptyField (prop (form st) "date") || emptyField (prop (form st) "title")
  then st' = setMessage "Please add at least a date and title." st /\
       events st' = events st /\ form st' = form st /\ selectedDate st' = selectedDate st /\
       message (status_ st') = "Please add at least a date and title."
  else events st' ≡ₚ events st ++ [normalizeEvent parseISO (form st)] /\
       message (status_ st') = "Event added locally.".
Proof.
  unfold handleAddEvent, emptyField.
  destruct (negb (truthy (prop (form st) "date")) || negb (truthy (prop (form st) "title"))); simpl.
  - done.
  - split; [apply Array_sort_Permutation|done].
Qed.

(** C6: an accepted add leaves the store holding its previous events and
    the normalized new event, arranged in ascending order of date; adding
    events dated 2026-01-03, 2026-01-01 and 2026-01-02 in that order to an
    empty store leaves them in the order 01, 02, 03. *)
Theorem handleAddEvent_sorts_by_date :
  (forall (parseISO : string -> JsDate) (st : AppState),
      truthy (prop (form st) "date") = true ->
      truthy (prop (form st) "title") = true ->
      let newEvent := normalizeEvent parseISO (form st) in
      let st' := handleAddEvent parseISO st in
      events st' = Array_sort byDate (events st ++ [newEvent]) /\
      events st' ≡ₚ events st ++ [newEvent] /\
      StronglySorted dateLe (events st')) /\
  (let add f st := handleAddEvent DateFns.parseISO_date (setForm f st) in
   let st3 :=
     add (formOf "2026-01-02" "Glucose test" "" "")
       (add (formOf "2026-01-01" "Checkup" "" "")
          (add (formOf "2026-01-03" "Scan" "" "") (initialState (DateAt 20000)))) in
   List.map date (events st3) = ["2026-01-01"; "2026-01-02"; "2026-01-03"] /\
   List.map title (events st3) = ["Checkup"; "Glucose test"; "Scan"]).
Proof.
  split.
  - intros parseISO st Hd Ht newEvent st'. subst newEvent st'.
    unfold handleAddEvent. rewrite Hd, Ht. simpl.
    split; [done|]. split; [apply Array_sort_Permutation|apply sort_byDate_sorted].
  - by vm_compute.
Qed.

(** ** Gestational progress *)

(** C4: with [dayDelta] the calendar days from the reference date to now: a
    negative [dayDelta] gives week 0, day 0 and the sentinel trimester;
    otherwise the week is [dayDelta / 7] rounded down and the day is
    [dayDelta mod 7].  The trimester is the sentinel up to week 0, the first
    for weeks 1 to 12, the second for 13 to 27 and the third from 28 on; the
    month is the sentinel up to week 0 and the week count over 4, rounded
    up, after that. *)
Theorem pregnancyProgress_values (lmpDate today : Z) :
  let p := pregnancyProgress lmpDate today in
  let dayDelta := differenceInCalendarDays today lmpDate in
  (dayDelta < 0 -> weekNumber p = 0 /\ dayOfWeek p = 0 /\ trimester p = "-") /\
  (0 <= dayDelta -> weekNumber p = dayDelta / 7 /\ dayOfWeek p = dayDelta mod 7) /\
  (weekNumber p <= 0 -> trimester p = "-" /\ pregnancyMonth p = Text "-") /\
  (1 <= weekNumber p <= 12 -> trimester p = "1st Trimester") /\
  (13 <= weekNumber p <= 27 -> trimester p = "2nd Trimester") /\
  (28 <= weekNumber p -> trimester p = "3rd Trimester") /\
  (0 < weekNumber p ->
     exists month, pregnancyMonth p = Number month /\
                   4 * (month - 1) < weekNumber p <= 4 * month).
Proof.
  intros p dayDelta. subst p. unfold pregnancyProgress. simpl.
  fold dayDelta. generalize dayDelta. clear. intros dayDelta.
  repeat split.
  - destruct (Z.geb_spec dayDelta 0); [lia|done].
  - destruct (Z.geb_spec dayDelta 0); [lia|done].
  - destruct (Z.geb_spec dayDelta 0); [lia|done].
  - destruct (Z.geb_spec dayDelta 0); [done|lia].
  - destruct (Z.geb_spec dayDelta 0); [|lia].
    rewrite Z.rem_mod_nonneg; [done|lia|lia].
  - destruct (Z.leb_spec (if dayDelta >=? 0 then dayDelta / 7 else 0) 0); [done|lia].
  - destruct (Z.leb_spec (if dayDelta >=? 0 then dayDelta / 7 else 0) 0); [done|lia].
  - set (w := if dayDelta >=? 0 then dayDelta / 7 else 0).
    destruct (Z.leb_spec w 0); [lia|]. destruct (Z.leb_spec w 12); [done|lia].
  - set (w := if dayDelta >=? 0 then dayDelta / 7 else 0).
    destruct (Z.leb_spec w 0); [lia|]. destruct (Z.leb_spec w 12); [lia|].
    destruct (Z.leb_spec w 27); [done|lia].
  - set (w := if dayDelta >=? 0 then dayDelta / 7 else 0).
    destruct (Z.leb_spec w 0); [lia|]. destruct (Z.leb_spec w 12); [lia|].
    destruct (Z.leb_spec w 27); [lia|done].
  - set (w := if dayDelta >=? 0 then dayDelta / 7 else 0). intros Hw.
    destruct (Z.leb_spec w 0); [lia|].
    exists (Math_ceil_div w 4). split; [done|].
    unfold Math_ceil_div.
    pose proof (Z.div_mod (- w) 4 ltac:(lia)) as Hdm.
    pose proof (Z.mod_pos_bound (- w) 4 ltac:(lia)) as Hb.
    lia.
Qed.

(** ** Normalization *)

(** C10: a lowercase key bound to the empty text is used as it is, whatever
    the capitalized variants hold: the field normalizes to the empty text.
    More generally the capitalized variants are read only when the
    lowercase key is nullish. *)
Theorem normalizeEvent_prefers_lowercase (parseISO : string -> JsDate)
    (raw : Raw) :
  let e := normalizeEvent parseISO raw in
  ((prop raw "date" = JStr "" -> date e = "") /\
   (prop raw "type" = JStr "" -> type e = "") /\
   (prop raw "title" = JStr "" -> title e = "") /\
   (prop raw "notes" = JStr "" -> notes e = "")) /\
  ((nullish (prop raw "date") = false -> date e = formatDateInput parseISO (prop raw "date")) /\
   (nullish (prop raw "type") = false -> type e = Js.trim (String_ (prop raw "type"))) /\
   (nullish (prop raw "title") = false -> title e = Js.trim (String_ (prop raw "title"))) /\
   (nullish (prop raw "notes") = false -> notes e = Js.trim (String_ (prop raw "notes")))) /\
  ((nullish (prop raw "date") = true ->
      date e = formatDateInput parseISO (prop raw "Date" ?? prop raw "DATE")) /\
   (nullish (prop raw "type") = true -> type e = Js.trim (String_ (prop raw "Type" ?? JStr ""))) /\
   (nullish (prop raw "title") = true -> title e = Js.trim (String_ (prop raw "Title" ?? JStr ""))) /\
   (nullish (prop raw "notes") = true -> notes e = Js.trim (String_ (prop raw "Notes" ?? JStr "")))).
Proof.
  intros e. subst e. unfold normalizeEvent, coalesce. simpl.
  repeat split; intros H; repeat (rewrite H; simpl); done.
Qed.

Lemma formatDateInput_unparseable (parseISO : string -> JsDate) (v : JsValue) :
  unparseable parseISO v -> formatDateInput parseISO v = "".
Proof.
  intros [Hd Hp]. unfold formatDateInput.
  destruct (negb (truthy v)); [done|].
  destruct v as [| |s|[|day] text|t text]; simpl in *; rewrite ?Hp; try done.
  by destruct (Hd day text).
Qed.

Lemma keepDated_app (parseISO : string -> JsDate) (l1 l2 : list Raw) :
  keepDated parseISO (l1 ++ l2) = keepDated parseISO l1 ++ keepDated parseISO l2.
Proof. unfold keepDated. by rewrite List.map_app, List.filter_app. Qed.

Lemma keepDated_dated (parseISO : string -> JsDate) (rows : list Raw) :
  Forall (fun event => date event <> "") (keepDated parseISO rows).
Proof.
  apply Forall_forall. intros event Hin.
  apply list_elem_of_In, filter_In in Hin as [_ Hd]. simpl in Hd.
  intros Heq. by rewrite Heq in Hd.
Qed.

Lemma fetchSheetEvents_dated (parseISO : string -> JsDate) fetched (loaded : list Event) :
  fetchSheetEvents parseISO fetched = Returned loaded ->
  Forall (fun event => date event <> "") loaded.
Proof.
  unfold fetchSheetEvents. intros H.
  destruct fetched as [m|response]; [done|].
  destruct (negb (ok response)); [done|].
  destruct (body response) as [m|rows]; [done|].
  injection H as <-. apply keepDated_dated.
Qed.

Lemma fetchJsonEvents_dated (parseISO : string -> JsDate) fetched (loaded : list Event) :
  fetchJsonEvents parseISO fetched = Returned loaded ->
  Forall (fun event => date event <> "") loaded.
Proof.
  unfold fetchJsonEvents. intros H.
  destruct fetched as [m|response]; [done|].
  destruct (negb (ok response)); [done|].
  destruct (body response) as [m|data]; [done|].
  injection H as <-. apply keepDated_dated.
Qed.

(** C8: a record whose date is unparseable normalizes with the empty date,
    and its event is in no list a loader returns, from the sheet or from
    the JSON file; taking the record out of the rows leaves the loaded
    list as it was. *)
Theorem unparseable_date_is_dropped (parseISO : string -> JsDate)
    (raw : Raw) :
  unparseable parseISO (dateValueOf raw) ->
  date (normalizeEvent parseISO raw) = "" /\
  (forall fetched loaded,
      fetchSheetEvents parseISO fetched = Returned loaded ->
      normalizeEvent parseISO raw ∉ loaded) /\
  (forall fetched loaded,
      fetchJsonEvents parseISO fetched = Returned loaded ->
      normalizeEvent parseISO raw ∉ loaded) /\
  (forall before after,
      keepDated parseISO (before ++ raw :: after) = keepDated parseISO (before ++ after)).
Proof.
  intros Hu.
  assert (Hd : date (normalizeEvent parseISO raw) = "")
    by (simpl; by apply formatDateInput_unparseable).
  assert (Hout : forall loaded : list Event,
             Forall (fun event : Event => date event <> "") loaded ->
                                normalizeEvent parseISO raw ∉ loaded).
  { intros loaded Hall Hin. rewrite Forall_forall in Hall. by apply (Hall _ Hin). }
  split; [exact Hd|]. split; [|split].
  - intros fetched loaded H. eapply Hout, fetchSheetEvents_dated, H.
  - intros fetched loaded H. eapply Hout, fetchJsonEvents_dated, H.
  - intros before after. rewrite !keepDated_app. f_equal.
    unfold keepDated at 1. simpl List.map. simpl List.filter.
    change (formatDateInput parseISO _) with (date (normalizeEvent parseISO raw)).
    by rewrite Hd.
Qed.

(** ** The sync client *)

(** What [getGitHubFileSha] gives for each kind of response. *)
Lemma getGitHubFileSha_result remote log owner repo path branch token :
  GitHub.getGitHubFileSha owner repo path branch token remote log =
  (log ++ [readRequest owner repo path branch token],
   match remote log (readRequest owner repo path branch token) with
   | Threw m => Threw m
   | Returned response =>
       if status response =? 404 then Returned JNull
       else if negb (ok response) then
         Threw ("Failed to read " +:+ path +:+ ": " +:+ Js.Number_toString (status response))
       else GitHub.json (body response)
   end).
Proof.
  unfold GitHub.getGitHubFileSha, GitHub.bind, GitHub.fetch, readRequest.
  destruct (remote log _) as [m|response]; [done|].
  destruct (status response =? 404); [done|].
  destruct (negb (ok response)); [done|].
  unfold GitHub.settled, GitHub.ret. by destruct (GitHub.json (body response)).
Qed.

(** A read that gives a marker is followed by one request: the write
    carrying that marker. *)
Lemma putGitHubFile_after_read remote log log1 owner repo path branch token content message marker :
  GitHub.getGitHubFileSha owner repo path branch token remote log = (log1, Returned marker) ->
  fst (GitHub.putGitHubFile owner repo path branch token content message remote log)
  = log1 ++ [writeRequest owner repo path branch token content message marker].
Proof.
  intros Hread. unfold GitHub.putGitHubFile. unfold GitHub.bind at 1. rewrite Hread.
  unfold GitHub.bind, GitHub.fetch, writeRequest.
  destruct (remote log1 _) as [m|response]; [done|].
  destruct (negb (ok response)); unfold GitHub.settled, GitHub.throw, GitHub.ret.
  - by destruct (GitHub.text (body response)).
  - by destruct (GitHub.json (body response)).
Qed.

(** A read that throws ends [putGitHubFile] with the same error and no
    further request. *)
Lemma putGitHubFile_read_throws remote log log1 owner repo path branch token content message m :
  GitHub.getGitHubFileSha owner repo path branch token remote log = (log1, Threw m) ->
  GitHub.putGitHubFile owner repo path branch token content message remote log = (log1, Threw m).
Proof.
  intros Hread. unfold GitHub.putGitHubFile. unfold GitHub.bind at 1. by rewrite Hread.
Qed.

(** C2: in [putGitHubFile], when the metadata read is answered "not found"
    the write request is issued with a null [sha]; when it is answered with
    a revision marker the write request carries exactly that marker.  In
    both cases the write is the one request after the read. *)
Theorem putGitHubFile_revision_marker (remote : GitHub.Remote) (log : list GitHub.Request)
    (owner repo path branch token content message : string) (response : Response GitHub.Reply) :
  remote log (readRequest owner repo path branch token) = Returned response ->
  let issued :=
    fst (GitHub.putGitHubFile owner repo path branch token content message remote log) in
  (status response = 404 ->
     issued = log ++ [readRequest owner repo path branch token;
                      writeRequest owner repo path branch token content message JNull]) /\
  (forall marker,
     ok response = true -> GitHub.json (body response) = Returned marker ->
     issued = log ++ [readRequest owner repo path branch token;
                      writeRequest owner repo path branch token content message marker]).
Proof.
  intros Hresp issued. subst issued.
  pose proof (getGitHubFileSha_result remote log owner repo path branch token) as Hread.
  rewrite Hresp in Hread. split.
  - intros H404. rewrite H404 in Hread. simpl in Hread.
    rewrite (putGitHubFile_after_read _ _ _ _ _ _ _ _ _ _ _ Hread).
    by rewrite <- app_assoc.
  - intros marker Hok Hjson.
    assert (H404 : (status response =? 404) = false).
    { unfold ok in Hok. apply andb_true_iff in Hok as [_ Hle]. lia. }
    rewrite H404, Hok, Hjson in Hread. simpl in Hread.
    rewrite (putGitHubFile_after_read _ _ _ _ _ _ _ _ _ _ _ Hread).
    by rewrite <- app_assoc.
Qed.

(** The requests a failed [putGitHubFile] has issued: the read alone, or
    the read and the write. *)
Lemma putGitHubFile_failed_log remote owner repo path branch token content message log1 m :
  GitHub.putGitHubFile owner repo path branch token content message remote [] = (log1, Threw m) ->
  log1 = [readRequest owner repo path branch token] \/
  exists marker,
    log1 = [readRequest owner repo path branch token;
            writeRequest owner repo path branch token content message marker].
Proof.
  intros Hput.
  destruct (GitHub.getGitHubFileSha owner repo path branch token remote []) as [log0 [m0|marker]] eqn:Hread.
  - rewrite (putGitHubFile_read_throws _ _ _ _ _ _ _ _ _ _ _ Hread) in Hput.
    rewrite getGitHubFileSha_result in Hread. simpl in Hread.
    injection Hread as <- _. injection Hput as <- _. by left.
  - right. exists marker.
    pose proof (putGitHubFile_after_read _ _ _ _ _ _ _ _ content message _ Hread) as Hlog.
    rewrite Hput in Hlog. simpl in Hlog.
    rewrite getGitHubFileSha_result in Hread. injection Hread as <- _. exact Hlog.
Qed.


(** ** Calendar facts *)

Lemma forallFrom_spec (f : Z -> bool) (p : positive) (lo n : Z) :
  forallFrom f lo p = true -> lo <= n < lo + Zpos p -> f n = true.
Proof.
  revert lo. induction p as [q IH|q IH|]; simpl; intros lo Hall Hn.
  - apply andb_true_iff in Hall as [Hall H2]. apply andb_true_iff in Hall as [H0 H1].
    destruct (Z.eq_dec n lo) as [->|Hne]; [done|].
    destruct (Z_lt_le_dec n (lo + 1 + Zpos q)); [apply (IH (lo + 1))|apply (IH (lo + 1 + Zpos q))];
      (done || lia).
  - apply andb_true_iff in Hall as [H1 H2].
    destruct (Z_lt_le_dec n (lo + Zpos q)); [apply (IH lo)|apply (IH (lo + Zpos q))];
      (done || lia).
  - by replace n with lo by lia.
Qed.

(** Where a day of the era falls: century [c], four-year cycle [q], year
    [a] of the cycle and day [doy] of that year.  The 366th day exists only
    in the last year of a cycle, and at the end of a century only in the
    fourth. *)
Lemma era_position (doe : Z) :
  0 <= doe < 146097 ->
  let c := Z.min (doe / 36524) 3 in
  let doc := doe - c * 36524 in
  let q := doc / 1461 in
  let doq := doc - q * 1461 in
  let a := Z.min (doq / 365) 3 in
  let doy := doq - a * 365 in
  0 <= c <= 3 /\ 0 <= q <= 24 /\ 0 <= a <= 3 /\ 0 <= doy <= 365 /\
  doe = 36524 * c + 1461 * q + 365 * a + doy /\
  (doy = 365 -> a = 3 /\ (q < 24 \/ c = 3)).
Proof.
  intros Hdoe c doc q doq a doy.
  assert (Hc : 0 <= c <= 3 /\ 0 <= doc <= 36524 /\ (doc = 36524 -> c = 3)).
  { subst doc c. pose proof (Z.div_mod doe 36524 ltac:(lia)).
    pose proof (Z.mod_pos_bound doe 36524 ltac:(lia)). lia. }
  destruct Hc as (Hc & Hdoc & Hc3).
  assert (Hq : 0 <= q <= 24 /\ 0 <= doq <= 1460 /\ (q = 24 -> doq = 1460 -> doc = 36524)).
  { subst doq q. pose proof (Z.div_mod doc 1461 ltac:(lia)).
    pose proof (Z.mod_pos_bound doc 1461 ltac:(lia)). lia. }
  destruct Hq as (Hq & Hdoq & Hq24).
  assert (Ha : 0 <= a <= 3 /\ 0 <= doy <= 365 /\ (doy = 365 -> a = 3 /\ doq = 1460)).
  { subst doy a. pose proof (Z.div_mod doq 365 ltac:(lia)).
    pose proof (Z.mod_pos_bound doq 365 ltac:(lia)). lia. }
  destruct Ha as (Ha & Hdoy & H365).
  repeat split; lia.
Qed.

Lemma monthCheck_all (doy : Z) : 0 <= doy <= 365 -> monthCheck doy = true.
Proof.
  intros H. apply (forallFrom_spec monthCheck 366 0); [by vm_compute|lia].
Qed.

Lemma month_position (doy : Z) :
  0 <= doy <= 365 ->
  let mp := (5 * doy + 2) / 153 in
  let d := doy - (153 * mp + 2) / 5 + 1 in
  let m := if mp <? 10 then mp + 3 else mp - 9 in
  0 <= mp <= 11 /\ 1 <= m <= 12 /\ (if m <=? 2 then m + 9 else m - 3) = mp /\ 1 <= d /\
  (doy = 365 -> m = 2 /\ d = 29) /\
  (doy <> 365 -> d <= DateFns.daysInMonth 1 (m - 1)) /\
  (m <=? 2) = negb (doy <? 306).
Proof.
  intros Hdoy. pose proof (monthCheck_all doy Hdoy) as Hm. unfold monthCheck in Hm.
  cbv zeta.
  set (mp := (5 * doy + 2) / 153) in *.
  set (d := doy - (153 * mp + 2) / 5 + 1) in *.
  set (m := if mp <? 10 then mp + 3 else mp - 9) in *.
  apply andb_true_iff in Hm as [Hm Hside]. apply andb_true_iff in Hm as [Hm Hday].
  apply andb_true_iff in Hm as [Hm Hd1]. apply andb_true_iff in Hm as [Hmp0 Hmp11].
  apply Z.leb_le in Hmp0, Hmp11, Hd1.
  assert (Hmm : 1 <= m <= 12 /\ (if m <=? 2 then m + 9 else m - 3) = mp).
  { subst m. destruct (Z.ltb_spec mp 10).
    - destruct (Z.leb_spec (mp + 3) 2); lia.
    - destruct (Z.leb_spec (mp - 9) 2); lia. }
  destruct Hmm as [Hm12 Hback].
  repeat split; try lia; try done.
  - rewrite (proj2 (Z.eqb_eq _ _) H) in Hday.
    apply andb_true_iff in Hday as [H1 H2]. by apply Z.eqb_eq in H1.
  - rewrite (proj2 (Z.eqb_eq _ _) H) in Hday.
    apply andb_true_iff in Hday as [H1 H2]. by apply Z.eqb_eq in H2.
  - intros H365. apply Z.eqb_neq in H365. rewrite H365 in Hday. by apply Z.leb_le in Hday.
  - subst m. destruct (Z.ltb_spec doy 306); simpl.
    + apply Z.ltb_lt in Hside. rewrite (proj2 (Z.ltb_lt _ _) Hside). apply Z.leb_gt. lia.
    + apply Z.leb_le in Hside. rewrite (proj2 (Z.ltb_ge _ _) Hside). apply Z.leb_le. lia.
Qed.

Lemma isLeapYearIndex_spec (y : Z) :
  Calendar.isLeapYearIndex y = true <-> (y mod 400 = 0 \/ (y mod 4 = 0 /\ y mod 100 <> 0)).
Proof.
  unfold Calendar.isLeapYearIndex.
  assert (H : forall k, k <> 0 -> (Z.rem y k =? 0) = (y mod k =? 0)).
  { intros k Hk. destruct (Z.eqb_spec (y mod k) 0) as [H0|H0].
    - apply Z.eqb_eq. apply Z.rem_divide; [done|]. by apply Z.mod_divide.
    - apply Z.eqb_neq. intros H1. apply H0. apply Z.mod_divide; [done|].
      by apply Z.rem_divide. }
  rewrite !H by lia.
  rewrite orb_true_iff, andb_true_iff, negb_true_iff, !Z.eqb_eq, Z.eqb_neq. done.
Qed.

Lemma daysInMonth_common (y month : Z) :
  DateFns.daysInMonth 1 month <= DateFns.daysInMonth y month.
Proof.
  unfold DateFns.daysInMonth. destruct (month =? 1); [|lia].
  destruct (Calendar.isLeapYearIndex y); by vm_compute.
Qed.

(** The civil date of a day is a date of the calendar, and its day number
    is the day it came from. *)
Lemma civil_from_days_valid (n : Z) :
  let '(y, m, d) := Calendar.civil_from_days n in
  DateFns.validateDate y (m - 1) d = true /\ Calendar.days_from_civil y m d = n.
Proof.
  unfold Calendar.civil_from_days.
  set (z := n + 719468). set (era := z / 146097). set (doe := z mod 146097).
  assert (Hz : z = 146097 * era + doe) by (apply Z.div_mod; lia).
  assert (Hdoe : 0 <= doe < 146097) by (apply Z.mod_pos_bound; lia).
  pose proof (era_position doe Hdoe) as Hp. cbv zeta in Hp.
  set (c := Z.min (doe / 36524) 3) in *.
  set (q := (doe - c * 36524) / 1461) in *.
  set (a := Z.min ((doe - c * 36524 - q * 1461) / 365) 3) in *.
  set (doy := doe - c * 36524 - q * 1461 - a * 365) in *.
  destruct Hp as (Hc & Hq & Ha & Hdoy & Hsum & Hleap).
  pose proof (month_position doy Hdoy) as Hm. cbv zeta in Hm.
  set (mp := (5 * doy + 2) / 153) in *.
  set (d := doy - (153 * mp + 2) / 5 + 1) in *.
  set (m := if mp <? 10 then mp + 3 else mp - 9) in *.
  destruct Hm as (Hmp11 & Hm12 & Hmp & Hd1 & H365 & Hcommon & _).
  set (y := era * 400 + c * 100 + q * 4 + a).
  split.
  - unfold DateFns.validateDate.
    repeat (apply andb_true_iff; split); try lia.
    destruct (Z.eq_dec doy 365) as [Hlast|Hlast].
    + destruct (Hleap Hlast) as [Ha3 Hq24].
      destruct (H365 Hlast) as [Hm2 Hd29]. rewrite Hm2, Hd29. simpl.
      assert (Hl : Calendar.isLeapYearIndex (y + 1) = true).
      { apply isLeapYearIndex_spec. subst y.
        destruct (Z.eq_dec q 24) as [Hq'|Hq'].
        - left.
          replace (era * 400 + c * 100 + q * 4 + a + 1) with ((era + 1) * 400) by lia.
          apply Z.mod_mul. lia.
        - right. split.
          + replace (era * 400 + c * 100 + q * 4 + a + 1)
              with ((era * 100 + c * 25 + q + 1) * 4) by lia.
            apply Z.mod_mul. lia.
          + replace (era * 400 + c * 100 + q * 4 + a + 1)
              with (4 * (q + 1) + (era * 4 + c) * 100) by lia.
            rewrite Z.mod_add by lia. rewrite Z.mod_small by lia. lia. }
      unfold DateFns.daysInMonth. simpl. rewrite Hl. lia.
    + pose proof (daysInMonth_common (if m <=? 2 then y + 1 else y) (m - 1)).
      pose proof (Hcommon Hlast). lia.
  - unfold Calendar.days_from_civil.
    replace (if m <=? 2 then (if m <=? 2 then y + 1 else y) - 1 else (if m <=? 2 then y + 1 else y))
      with y by (destruct (m <=? 2); lia).
    rewrite Hmp.
    set (yoe := c * 100 + q * 4 + a).
    assert (He : y / 400 = era).
    { subst y. replace (era * 400 + c * 100 + q * 4 + a) with (yoe + era * 400) by (subst yoe; lia).
      rewrite Z.div_add by lia. rewrite Z.div_small by (subst yoe; lia). lia. }
    rewrite He. replace (y - era * 400) with yoe by (subst y yoe; lia).
    assert (H4 : yoe / 4 = c * 25 + q).
    { subst yoe. replace (c * 100 + q * 4 + a) with (a + (c * 25 + q) * 4) by lia.
      rewrite Z.div_add by lia. rewrite Z.div_small by lia. lia. }
    assert (H100 : yoe / 100 = c).
    { subst yoe. replace (c * 100 + q * 4 + a) with (q * 4 + a + c * 100) by lia.
      rewrite Z.div_add by lia. rewrite Z.div_small by lia. lia. }
    rewrite H4, H100. subst d yoe. lia.
Qed.

Lemma firstDay_eq : firstDay = -719162.
Proof. by vm_compute. Qed.

Lemma lastDay_eq : lastDay = 2932896.
Proof. by vm_compute. Qed.

Lemma getFullYear_four_digits (n : Z) :
  firstDay <= n <= lastDay -> 1 <= Calendar.getFullYear n <= 9999.
Proof.
  rewrite firstDay_eq, lastDay_eq. intros Hn'.
  unfold Calendar.getFullYear, Calendar.civil_from_days. cbn [fst].
  set (z := n + 719468). set (era := z / 146097). set (doe := z mod 146097).
  assert (Hz : z = 146097 * era + doe) by (apply Z.div_mod; lia).
  assert (Hdoe : 0 <= doe < 146097) by (apply Z.mod_pos_bound; lia).
  assert (Hzn : z = n + 719468) by done.
  clearbody era doe z.
  assert (Hera : 0 <= era <= 24) by lia.
  pose proof (era_position doe Hdoe) as Hp. cbv zeta in Hp.
  set (c := Z.min (doe / 36524) 3) in *.
  set (q := (doe - c * 36524) / 1461) in *.
  set (a := Z.min ((doe - c * 36524 - q * 1461) / 365) 3) in *.
  set (doy := doe - c * 36524 - q * 1461 - a * 365) in *.
  destruct Hp as (Hc & Hq & Ha & Hdoy & Hsum & Hleap).
  clearbody doy a q c.
  pose proof (month_position doy Hdoy) as Hm. cbv zeta in Hm.
  set (mp := (5 * doy + 2) / 153) in *.
  set (d := doy - (153 * mp + 2) / 5 + 1) in *.
  set (m := if mp <? 10 then mp + 3 else mp - 9) in *.
  destruct Hm as (_ & _ & _ & _ & _ & _ & Hm2).
  rewrite Hm2. clear - Hzn Hz Hn' Hera Hc Hq Ha Hdoy Hsum.
  destruct (Z.ltb_spec doy 306); simpl; lia.
Qed.

(** ** The text of a date *)

Lemma digitChar_value (k : Z) : DateFns.digitValue (digitChar k) = Some (k mod 10).
Proof.
  unfold digitChar. pose proof (Z.mod_pos_bound k 10 ltac:(lia)) as Hb.
  set (j := k mod 10) in *.
  assert (Hj : j = 0 \/ j = 1 \/ j = 2 \/ j = 3 \/ j = 4 \/ j = 5 \/ j = 6 \/ j = 7 \/ j = 8 \/ j = 9)
    by lia.
  clearbody j. repeat (destruct Hj as [-> | Hj]; [done|]). by subst j.
Qed.

Lemma digit_not (c x : ascii) (v : Z) :
  DateFns.digitValue c = Some v -> DateFns.digitValue x = None -> Ascii.eqb c x = false.
Proof.
  intros Hc Hx. destruct (Ascii.eqb_spec c x) as [->|]; [congruence|done].
Qed.

Lemma digitChar_not (k : Z) (x : ascii) :
  DateFns.digitValue x = None -> Ascii.eqb (digitChar k) x = false.
Proof. apply digit_not with (k mod 10), digitChar_value. Qed.

Lemma addLeadingZeros_four (y : Z) : 0 <= y <= 9999 -> addLeadingZeros y 4 = fourDigits y.
Proof.
  intros H. apply String.eqb_eq.
  apply (forallFrom_spec (fun y => String.eqb (addLeadingZeros y 4) (fourDigits y)) 10000 0);
    [by vm_compute|lia].
Qed.

Lemma addLeadingZeros_two (m : Z) : 0 <= m <= 99 -> addLeadingZeros m 2 = twoDigits m.
Proof.
  intros H. apply String.eqb_eq.
  apply (forallFrom_spec (fun m => String.eqb (addLeadingZeros m 2) (twoDigits m)) 100 0);
    [by vm_compute|lia].
Qed.

(** Within the four-digit years [format] gives the ten characters of the
    civil date. *)
Lemma format_yyyy_MM_dd_text (n : Z) :
  firstDay <= n <= lastDay ->
  exists y m d,
    Calendar.civil_from_days n = (y, m, d) /\
    1 <= y <= 9999 /\ DateFns.validateDate y (m - 1) d = true /\
    Calendar.days_from_civil y m d = n /\
    format_yyyy_MM_dd n = isoText y m d.
Proof.
  intros Hn. pose proof (getFullYear_four_digits n Hn) as Hy.
  pose proof (civil_from_days_valid n) as Hv.
  unfold format_yyyy_MM_dd, format_y, Calendar.getFullYear, Calendar.getMonth, Calendar.getDate in *.
  destruct (Calendar.civil_from_days n) as [[y m] d]. cbn [fst snd] in *.
  destruct Hv as [Hval Hback].
  exists y, m, d. repeat split; try done; try lia.
  assert (Hmd : 1 <= m <= 12 /\ 1 <= d <= 31).
  { unfold DateFns.validateDate in Hval.
    repeat (apply andb_true_iff in Hval as [Hval ?]).
    assert (DateFns.daysInMonth y (m - 1) <= 31).
    { unfold DateFns.daysInMonth.
      repeat match goal with |- context [if ?b then _ else _] => destruct b end; lia. }
    lia. }
  replace (y >? 0) with true by (symmetry; apply Z.gtb_lt; lia).
  rewrite addLeadingZeros_four by lia.
  replace (m - 1 + 1) with m by lia.
  rewrite !addLeadingZeros_two by lia.
  done.
Qed.

Lemma digits_four (y : Z) (rest : string) :
  0 <= y <= 9999 ->
  DateFns.digits 4
    (String (digitChar (y / 1000)) (String (digitChar (y / 100)) (String (digitChar (y / 10))
       (String (digitChar y) rest)))) 0 = Some (y, rest).
Proof.
  intros Hy. cbn [DateFns.digits]. rewrite !digitChar_value. do 2 f_equal.
  apply Z.eqb_eq.
  apply (forallFrom_spec
           (fun y => 10 * (10 * (10 * (10 * 0 + (y / 1000) mod 10) + (y / 100) mod 10)
                          + (y / 10) mod 10) + y mod 10 =? y) 10000 0);
    [by vm_compute|lia].
Qed.

Lemma digits_two (m : Z) (rest : string) :
  0 <= m <= 99 ->
  DateFns.digits 2 (String (digitChar (m / 10)) (String (digitChar m) rest)) 0 = Some (m, rest).
Proof.
  intros Hm. cbn [DateFns.digits]. rewrite !digitChar_value. do 2 f_equal.
  apply Z.eqb_eq.
  apply (forallFrom_spec (fun m => 10 * (10 * 0 + (m / 10) mod 10) + m mod 10 =? m) 100 0);
    [by vm_compute|lia].
Qed.

Lemma canonicalDate_isoText (y m d : Z) :
  0 <= y <= 9999 -> 0 <= m <= 99 -> 0 <= d <= 99 ->
  canonicalDate (isoText y m d) = DateFns.validateDate y (m - 1) d.
Proof.
  intros Hy Hm Hd. unfold canonicalDate, isoText.
  rewrite digits_four by done. rewrite digits_two by done. rewrite digits_two by done.
  done.
Qed.

(** A text without the delimiters [T] and space is one piece. *)
Lemma splitDateTime_one (s : string) :
  Js.includes "T" s = false -> Js.includes " " s = false -> DateFns.splitDateTime s = [s].
Proof.
  induction s as [|c s IH]; simpl; [done|].
  intros HT Hsp. apply orb_false_iff in HT as [HcT HT]. apply orb_false_iff in Hsp as [Hcs Hsp].
  rewrite HcT, Hcs. simpl. by rewrite IH.
Qed.

Lemma includes_isoText (x : ascii) (y m d : Z) :
  DateFns.digitValue x = None -> Ascii.eqb "-" x = false ->
  Js.includes x (isoText y m d) = false.
Proof.
  intros Hx Hh. unfold isoText. cbn [Js.includes].
  rewrite !digitChar_not by done. by rewrite Hh.
Qed.

(** The model of [parseISO] reads the text YYYY-MM-DD of a calendar date of
    the four-digit years as that date, whatever it does with timed texts. *)
Lemma parseISO_isoText (readTimed : string -> JsDate) (y m d : Z) :
  0 <= y <= 9999 -> 0 <= m <= 99 -> 0 <= d <= 99 ->
  DateFns.validateDate y (m - 1) d = true ->
  DateFns.parseISO readTimed (isoText y m d) = timeClip (Calendar.days_from_civil y m d).
Proof.
  intros Hy Hm Hd Hv. unfold DateFns.parseISO.
  rewrite splitDateTime_one by (by apply includes_isoText).
  rewrite !includes_isoText by done. simpl orb. cbv iota.
  unfold DateFns.parseYear, DateFns.signValue, isoText.
  rewrite (digitChar_not _ "+"), (digitChar_not _ "-") by done.
  rewrite digits_four by done.
  unfold DateFns.parseDate, DateFns.dateRegex.
  cbn [DateFns.skipHyphen]. replace (Ascii.eqb "-" "-") with true by done. cbv iota.
  rewrite (digitChar_not _ "W") by done.
  replace (DateFns.digits 3 _ 0) with (@None (Z * string)).
  2:{ cbn [DateFns.digits]. by rewrite !digitChar_value. }
  rewrite digits_two by done.
  cbn [DateFns.skipHyphen]. replace (Ascii.eqb "-" "-") with true by done. cbv iota.
  rewrite digits_two by done.
  cbn [DateFns.c_week DateFns.c_dayOfYear DateFns.c_month DateFns.c_day DateFns.c_dayOfWeek
       DateFns.parseDateUnit default].
  rewrite ?bool_decide_false by (intros [? ?]; done).
  unfold id. rewrite Hv.
  assert (Hd1 : 1 <= d).
  { unfold DateFns.validateDate in Hv. repeat (apply andb_true_iff in Hv as [Hv ?]). lia. }
  replace (DateFns.validateDayOfYearDate y 1) with true
    by (unfold DateFns.validateDayOfYearDate; by destruct (Calendar.isLeapYearIndex y)).
  simpl. unfold DateFns.setUTCFullYear.
  replace (m - 1 + 1) with m by lia. by rewrite Z.max_r by lia.
Qed.

(** Within the four-digit years a date is read back from its text. *)
Lemma parseISO_format (readTimed : string -> JsDate) (n : Z) :
  firstDay <= n <= lastDay ->
  DateFns.parseISO readTimed (format_yyyy_MM_dd n) = DateAt n /\
  canonicalDate (format_yyyy_MM_dd n) = true.
Proof.
  intros Hn.
  destruct (format_yyyy_MM_dd_text n Hn) as (y & m & d & _ & Hy & Hv & Hback & ->).
  assert (Hmd : 0 <= m <= 99 /\ 0 <= d <= 99).
  { pose proof Hv as Hv'. unfold DateFns.validateDate in Hv'.
    repeat (apply andb_true_iff in Hv' as [Hv' ?]).
    assert (DateFns.daysInMonth y (m - 1) <= 31).
    { unfold DateFns.daysInMonth.
      repeat match goal with |- context [if ?b then _ else _] => destruct b end; lia. }
    lia. }
  destruct Hmd as [Hm Hd]. split.
  - rewrite parseISO_isoText by (done || lia). rewrite Hback.
    unfold timeClip, Calendar.inTimeRange.
    rewrite firstDay_eq, lastDay_eq in Hn.
    replace (-100000000 <=? n) with true by (symmetry; apply Z.leb_le; lia).
    by replace (n <=? 100000000) with true by (symmetry; apply Z.leb_le; lia).
  - rewrite canonicalDate_isoText by (done || lia). exact Hv.
Qed.

(** ** Trimming *)

Lemma trimEnd_cons (c : ascii) (s : string) :
  Js.isWhiteSpace c = false -> Js.trimEnd (String c s) = String c (Js.trimEnd s).
Proof. intros Hc. simpl. rewrite Hc. by destruct (Js.trimEnd s). Qed.

Lemma trimEnd_idempotent (s : string) : Js.trimEnd (Js.trimEnd s) = Js.trimEnd s.
Proof.
  induction s as [|c s IH]; [done|]. simpl.
  destruct (Js.trimEnd s) as [|c' kept] eqn:Hs.
  - destruct (Js.isWhiteSpace c) eqn:Hc; [done|]. simpl. by rewrite Hc.
  - change (Js.trimEnd (String c (String c' kept))) with
      (match Js.trimEnd (String c' kept) with
       | EmptyString => if Js.isWhiteSpace c then EmptyString else String c EmptyString
       | kept' => String c kept'
       end).
    by rewrite IH.
Qed.

Lemma trimStart_head (s : string) :
  Js.trimStart s = EmptyString \/
  exists c rest, Js.trimStart s = String c rest /\ Js.isWhiteSpace c = false.
Proof.
  induction s as [|c s IH]; simpl; [by left|].
  destruct (Js.isWhiteSpace c) eqn:Hc; [exact IH|]. right. by exists c, s.
Qed.

Lemma trim_idempotent (s : string) : Js.trim (Js.trim s) = Js.trim s.
Proof.
  unfold Js.trim. destruct (trimStart_head s) as [->|(c & rest & -> & Hc)]; [done|].
  rewrite trimEnd_cons by done. simpl Js.trimStart. rewrite Hc.
  rewrite <- trimEnd_cons by done. apply trimEnd_idempotent.
Qed.

(** ** Normalizing a normalized event *)

Lemma prop_object_of (e : Event) :
  prop (object_of e) "date" = JStr (date e) /\ prop (object_of e) "type" = JStr (type e) /\
  prop (object_of e) "title" = JStr (title e) /\ prop (object_of e) "notes" = JStr (notes e).
Proof. unfold prop, object_of. by simplify_map_eq. Qed.

Lemma normalizeEvent_object_of (parseISO : string -> JsDate) (e : Event) :
  normalizeEvent parseISO (object_of e) =
  {| date := formatDateInput parseISO (JStr (date e));
     type := Js.trim (type e); title := Js.trim (title e); notes := Js.trim (notes e) |}.
Proof.
  destruct (prop_object_of e) as (Hd & Hty & Hti & Hn).
  unfold normalizeEvent. by rewrite Hd, Hty, Hti, Hn.
Qed.

Lemma format_yyyy_MM_dd_nonempty (n : Z) : format_yyyy_MM_dd n <> "".
Proof.
  unfold format_yyyy_MM_dd. destruct (format_y n 4); discriminate.
Qed.

Lemma formatDateInput_canonical (parseISO : string -> JsDate) (s : string) :
  readsBack parseISO -> fourDigitYearDate s -> formatDateInput parseISO (JStr s) = s.
Proof.
  intros Hback (n & Hn & ->). unfold formatDateInput. simpl.
  destruct (String.eqb_spec (format_yyyy_MM_dd n) "") as [He|_].
  - by destruct (format_yyyy_MM_dd_nonempty n).
  - simpl. by rewrite Hback.
Qed.

(** Normalizing an event that is already canonical gives the same event. *)
Lemma normalizeEvent_canonical (parseISO : string -> JsDate) (e : Event) :
  readsBack parseISO -> fourDigitYearDate (date e) ->
  Js.trim (type e) = type e -> Js.trim (title e) = title e -> Js.trim (notes e) = notes e ->
  normalizeEvent parseISO (object_of e) = e.
Proof.
  intros Hback Hd Hty Hti Hn. rewrite normalizeEvent_object_of.
  rewrite formatDateInput_canonical by done. rewrite Hty, Hti, Hn. by destruct e.
Qed.

(** C7, amended: for every raw record whose date normalizes to a day of the
    years 0001 to 9999, normalizing the normalized event gives it back;
    that is, normalizing an already-canonical event yields the same event.
    The library is asked to read the text of such a day back as that
    day. *)
Theorem normalizeEvent_idempotent (parseISO : string -> JsDate) (raw : Raw) :
  readsBack parseISO ->
  fourDigitYearDate (date (normalizeEvent parseISO raw)) ->
  normalizeEvent parseISO (object_of (normalizeEvent parseISO raw))
  = normalizeEvent parseISO raw.
Proof.
  intros Hback Hd. apply normalizeEvent_canonical; try done; apply trim_idempotent.
Qed.

(** ** The store over a session *)

Lemma format_yyyy_MM_dd_rendered (n : Z) : renderedDate (format_yyyy_MM_dd n).
Proof.
  split; [apply format_yyyy_MM_dd_nonempty|].
  exists n. split; [done|]. intros Hn. by apply (parseISO_format (fun _ => InvalidDate)).
Qed.

Lemma formatDateInput_rendered (parseISO : string -> JsDate) (v : JsValue) :
  formatDateInput parseISO v <> "" -> renderedDate (formatDateInput parseISO v).
Proof.
  unfold formatDateInput. destruct (negb (truthy v)); [done|].
  destruct v as [| |s|[|day] text|t text]; try destruct (parseISO _);
    (done || (intros _; apply format_yyyy_MM_dd_rendered)).
Qed.

Lemma keepDated_rendered (parseISO : string -> JsDate) (rows : list Raw) :
  Forall (fun event => renderedDate (date event)) (keepDated parseISO rows).
Proof.
  apply Forall_forall. intros event Hin.
  apply list_elem_of_In, filter_In in Hin as [Hmap Hd].
  apply in_map_iff in Hmap as (raw & <- & _).
  apply formatDateInput_rendered. simpl in Hd. intros He.
  change (date (normalizeEvent parseISO raw)) with
    (formatDateInput parseISO (prop raw "date" ?? prop raw "Date" ?? prop raw "DATE")) in Hd.
  by rewrite He in Hd.
Qed.

Lemma fetchSheetEvents_rendered (parseISO : string -> JsDate) fetched (loaded : list Event) :
  fetchSheetEvents parseISO fetched = Returned loaded ->
  Forall (fun event => renderedDate (date event)) loaded.
Proof.
  unfold fetchSheetEvents. intros H.
  destruct fetched as [m|response]; [done|].
  destruct (negb (ok response)); [done|].
  destruct (body response) as [m|rows]; [done|].
  injection H as <-. apply keepDated_rendered.
Qed.

Lemma fetchJsonEvents_rendered (parseISO : string -> JsDate) fetched (loaded : list Event) :
  fetchJsonEvents parseISO fetched = Returned loaded ->
  Forall (fun event => renderedDate (date event)) loaded.
Proof.
  unfold fetchJsonEvents. intros H.
  destruct fetched as [m|response]; [done|].
  destruct (negb (ok response)); [done|].
  destruct (body response) as [m|data]; [done|].
  injection H as <-. apply keepDated_rendered.
Qed.

Lemma step_rendered (parseISO : string -> JsDate) (st : AppState) (op : Op) :
  acceptedDateReads parseISO op ->
  Forall (fun event => renderedDate (date event)) (events st) ->
  Forall (fun event => renderedDate (date event)) (events (step parseISO st op)).
Proof.
  intros Hop Hst. destruct op as [sheet json|submitted]; simpl in *.
  - unfold loadEvents.
    destruct (fetchSheetEvents parseISO sheet) as [m|sheetEvents] eqn:Hsheet.
    + destruct (fetchJsonEvents parseISO json) as [m'|jsonEvents] eqn:Hjson; simpl; [done|].
      by eapply fetchJsonEvents_rendered.
    + simpl. by eapply fetchSheetEvents_rendered.
  - unfold handleAddEvent. cbn [form setForm].
    destruct (truthy (prop submitted "date")) eqn:Hd; simpl; [|done].
    destruct (truthy (prop submitted "title")) eqn:Ht; simpl; [|done].
    rewrite Array_sort_Permutation. apply Forall_app. split; [done|].
    constructor; [|done]. apply formatDateInput_rendered. by apply Hop.
Qed.

Lemma run_rendered (parseISO : string -> JsDate) (ops : list Op) (st : AppState) :
  Forall (acceptedDateReads parseISO) ops ->
  Forall (fun event => renderedDate (date event)) (events st) ->
  Forall (fun event => renderedDate (date event)) (events (run parseISO ops st)).
Proof.
  revert st. induction ops as [|op ops IH]; intros st Hops Hst; [done|].
  inversion Hops; subst. simpl. apply IH; [done|]. by apply step_rendered.
Qed.



(** C7 as stated fails: a date of a five-digit year is read and printed as
    12345-01-01, a text that does not read as a date again. *)
Lemma normalizeEvent_idempotence_counterexample :
  isValid (DateFns.parseISO_date "+012345-01-01") = true /\
  date (normalizeEvent DateFns.parseISO_date {[ "date" := JStr "+012345-01-01" ]})
    = "12345-01-01" /\
  normalizeEvent DateFns.parseISO_date
    (object_of (normalizeEvent DateFns.parseISO_date {[ "date" := JStr "+012345-01-01" ]}))
  <> normalizeEvent DateFns.parseISO_date {[ "date" := JStr "+012345-01-01" ]}.
Proof.
  split; [by vm_compute|]. split; [by vm_compute|].
  intros H. apply (f_equal date) in H. vm_compute in H. discriminate.
Qed.

(** ** The statements on sample inputs *)


(** C2 on a remote without the file and on a remote that has it at revision
    [abc123]. *)
Lemma putGitHubFile_revision_marker_witness :
  fst (GitHub.putGitHubFile "octo" "planner" "data.json" "main" "t0k" "e30=" "Update"
         remoteConflict [])
  = [readRequest "octo" "planner" "data.json" "main" "t0k";
     writeRequest "octo" "planner" "data.json" "main" "t0k" "e30=" "Update" JNull] /\
  fst (GitHub.putGitHubFile "octo" "planner" "data.json" "main" "t0k" "e30=" "Update"
         remoteAtRevision [])
  = [readRequest "octo" "planner" "data.json" "main" "t0k";
     writeRequest "octo" "planner" "data.json" "main" "t0k" "e30=" "Update" (JStr "abc123")].
Proof.
  split.
  - exact (proj1 (putGitHubFile_revision_marker remoteConflict [] "octo" "planner" "data.json"
                    "main" "t0k" "e30=" "Update" _ eq_refl) eq_refl).
  - exact (proj2 (putGitHubFile_revision_marker remoteAtRevision [] "octo" "planner" "data.json"
                    "main" "t0k" "e30=" "Update" _ eq_refl) (JStr "abc123") eq_refl eq_refl).
Defined.


(** C6 on the sample store. *)
Lemma handleAddEvent_sorts_by_date_witness :
  let st := setForm (formOf "2026-01-02" "Checkup" "" "") sampleState in
  events (handleAddEvent DateFns.parseISO_date st)
  ≡ₚ events st ++ [normalizeEvent DateFns.parseISO_date (form st)] /\
  StronglySorted dateLe (events (handleAddEvent DateFns.parseISO_date st)).
Proof.
  intros st.
  exact (proj2 (proj1 handleAddEvent_sorts_by_date DateFns.parseISO_date st eq_refl eq_refl)).
Defined.

(** C7, amended, on a row with a capitalized key, a compact date and an
    untrimmed title, read with the model of [parseISO]. *)
Lemma normalizeEvent_idempotent_witness :
  readsBack DateFns.parseISO_date /\
  fourDigitYearDate
    (date (normalizeEvent DateFns.parseISO_date
             {[ "Date" := JStr "20260103"; "title" := JStr "  Scan " ]})) /\
  normalizeEvent DateFns.parseISO_date
    (object_of (normalizeEvent DateFns.parseISO_date
                  {[ "Date" := JStr "20260103"; "title" := JStr "  Scan " ]}))
  = normalizeEvent DateFns.parseISO_date
      {[ "Date" := JStr "20260103"; "title" := JStr "  Scan " ]}.
Proof.
  assert (Hback : readsBack DateFns.parseISO_date).
  { intros n Hn. by apply parseISO_format. }
  assert (Hd : fourDigitYearDate
                 (date (normalizeEvent DateFns.parseISO_date
                          {[ "Date" := JStr "20260103"; "title" := JStr "  Scan " ]}))).
  { exists 20456. split; [|by vm_compute]. rewrite firstDay_eq, lastDay_eq. lia. }
  split; [exact Hback|]. split; [exact Hd|].
  exact (normalizeEvent_idempotent _ _ Hback Hd).
Defined.

(** C8 on a row whose date is free text. *)
Lemma unparseable_date_is_dropped_witness :
  unparseable DateFns.parseISO_date (dateValueOf {[ "date" := JStr "to be fixed" ]}) /\
  date (normalizeEvent DateFns.parseISO_date {[ "date" := JStr "to be fixed" ]}) = "".
Proof.
  assert (H : unparseable DateFns.parseISO_date (dateValueOf {[ "date" := JStr "to be fixed" ]})).
  { split; [|by vm_compute]. intros day text. vm_compute. discriminate. }
  split; [exact H|]. exact (proj1 (unparseable_date_is_dropped _ _ H)).
Defined.

(** ** The examples of the specification *)

Example add_rejects_empty_date :
  events (handleAddEvent DateFns.parseISO_date (setForm (formOf "" "x" "" "") sampleState))
  = events sampleState.
Proof. by vm_compute. Qed.

Example add_rejects_empty_title :
  events (handleAddEvent DateFns.parseISO_date
            (setForm (formOf "2026-01-01" "" "" "") sampleState))
  = events sampleState.
Proof. by vm_compute. Qed.

Example add_accepts_date_and_title :
  List.map title
    (events (handleAddEvent DateFns.parseISO_date
               (setForm (formOf "2026-01-01" "Checkup" "" "") sampleState)))
  = ["Checkup"; "Dating scan"].
Proof. by vm_compute. Qed.

Example progress_on_reference_day :
  DateFns.parseISO_date startDate = DateAt 20381 /\
  let p := pregnancyProgress 20381 20381 in
  weekNumber p = 0 /\ dayOfWeek p = 0 /\ trimester p = "-".
Proof. by vm_compute. Qed.

Example progress_after_six_weeks :
  DateFns.parseISO_date "2025-12-01" = DateAt 20423 /\
  differenceInCalendarDays 20423 20381 = 42 /\
  let p := pregnancyProgress 20381 20423 in
  weekNumber p = 6 /\ dayOfWeek p = 0 /\ trimester p = "1st Trimester" /\
  pregnancyMonth p = Number 2 /\ range p = "Dec 1, 2025 - Dec 7, 2025".
Proof. by vm_compute. Qed.

Example lowercase_empty_wins :
  normalizeEvent DateFns.parseISO_date
    {[ "date" := JStr ""; "Date" := JStr "2026-01-01"; "title" := JStr ""; "Title" := JStr "Scan" ]}
  = {| date := ""; type := ""; title := ""; notes := "" |}.
Proof. by vm_compute. Qed.

Example sync_stops_when_the_read_is_refused :
  handleSync (fun _ => "e30=") (fun _ => Returned "UEsDBA==") remoteDown sampleState
  = ([readRequest "octo" "planner" "public/data/pregnancy-data.json" "main" "t0k"],
     setMessage "Failed to read public/data/pregnancy-data.json: 500" sampleState).
Proof. by vm_compute. Qed.

Example sync_writes_both_files :
  List.map GitHub.method
    (fst (handleSync (fun _ => "e30=") (fun _ => Returned "UEsDBA==") remoteAtRevision sampleState))
  = [GitHub.GET; GitHub.PUT; GitHub.GET; GitHub.PUT] /\
  message (status_ (snd (handleSync (fun _ => "e30=") (fun _ => Returned "UEsDBA==")
                           remoteAtRevision sampleState)))
  = "Synced data to GitHub.".
Proof. by vm_compute. Qed.

Example sync_needs_settings :
  handleSync (fun _ => "e30=") (fun _ => Returned "UEsDBA==") remoteAtRevision
    (initialState (DateAt 20000))
  = ([], setMessage "Add GitHub owner, repo, and token before syncing."
           (initialState (DateAt 20000))).
Proof. by vm_compute. Qed.

(** Year 0 is printed as 0001, so its leap day is printed as a text that
    names no day. *)
Example leap_day_of_year_zero :
  date (normalizeEvent DateFns.parseISO_date {[ "date" := JStr "0000-02-29" ]}) = "0001-02-29" /\
  DateFns.parseISO_date "0001-02-29" = InvalidDate.
Proof. by vm_compute. Qed.

Example numeric_date_is_read :
  normalizeEvent DateFns.parseISO_date {[ "DATE" := JNum 20260309; "Type" := JBool true ]}
  = {| date := "2026-03-09"; type := "true"; title := ""; notes := "" |}.
Proof. by vm_compute. Qed.

Example progress_memo :
  exists p, pregnancyProgressOf DateFns.parseISO_date (DateAt 20423) = Returned p /\
            weekNumber p = 6 /\ todayKey p = "2025-12-01".
Proof. eexists. split; [by vm_compute|]. by vm_compute. Qed.

Example events_of_a_day :
  selectedEvents "2026-01-08"
    (events (handleAddEvent DateFns.parseISO_date
               (setForm (formOf "2026-01-08" "Blood test" "" "") sampleState)))
  = [ {| date := "2026-01-08"; type := "Ultrasound 1"; title := "Dating scan"; notes := "" |};
      {| date := "2026-01-08"; type := ""; title := "Blood test"; notes := "" |} ].
Proof. by vm_compute. Qed.

Example upcoming_sample :
  List.map date
    (upcomingEvents "2026-01-02"
       (List.map (fun d => {| date := d; type := ""; title := ""; notes := "" |})
          ["2026-03-01"; "2026-01-01"; "2026-01-02"; "2026-02-01"; "2026-05-01"; "2026-04-01";
           "2026-06-01"; ""]))
  = ["2026-01-02"; "2026-02-01"; "2026-03-01"; "2026-04-01"; "2026-05-01"].
Proof. by vm_compute. Qed.
